(** * TelegramMiniGame: the mini-game framework of hanoi_tower_telegram

    A shallow embedding of [class TelegramMiniGame] as it stands in the three
    copies the repository keeps:

    - [src/game-interface.js:1-690]    (module [Current] below),
    - [src/game-interface_working.js]  (module [Working]),
    - [src/unnamed/part_000]           (module [Part000]).

    The three copies share every method except [sendResult]; the shared
    methods are embedded once.  [src/game-interface.js] holds, after line 690,
    an older listing of the class, without milestones and translations; its
    [sendResult] (lines 863-899) is module [Legacy].

    Conventions.
    - A JavaScript number is a [jsnum]: NaN, the two infinities, or a finite
      value held as a rational.  Comparisons, [Math.min], [Math.max] and
      [Math.floor] are exact on doubles and are defined here; the rounding
      operations ([*], [/], [-], [%]) and the parsing and printing built-ins
      belong to the engine and are the fields of the class [Engine], so every
      theorem holds for whatever the engine computes.  [ExactEngine] is an
      instance used to run the code on concrete inputs.
    - A method is a computation [M A] over a [World] (the object [this], the
      page's environment, [localStorage], the clock); it returns normally or
      throws, and emits the effects it performs on the host in order.
    - A string is held as the UTF-8 encoding of the JavaScript string (of
      Unicode characters; a string with a lone surrogate has no encoding
      here).  [js_length] counts its UTF-16 code units, which is what the
      property [length] returns; [String.length] counts its bytes.
      [toLowerCase] is the engine's. *)

From Stdlib Require Import ZArith QArith Qround String Ascii List Lia.
From stdpp Require Import base option list strings pretty gmap.

Set Warnings "-register-all".

Local Open Scope Z_scope.
Local Open Scope string_scope.
Local Open Scope list_scope.

(* ===================================================================== *)
(** ** Numbers *)
(* ===================================================================== *)

Inductive jsnum : Type :=
| NaN
| NegInf
| Fin (q : Q)
| PosInf.

Definition num_of_Z (z : Z) : jsnum := Fin (inject_Z z).

(** [a <= b] as JavaScript evaluates it: false as soon as one side is NaN. *)
Definition num_leb (a b : jsnum) : bool :=
  match a, b with
  | NaN, _ | _, NaN => false
  | NegInf, _ => true
  | _, PosInf => true
  | Fin x, Fin y => Qle_bool x y
  | Fin _, NegInf => false
  | PosInf, _ => false
  end.

(** [a >= b]. *)
Definition num_geb (a b : jsnum) : bool := num_leb b a.

(** [a > b]. *)
Definition num_gtb (a b : jsnum) : bool :=
  match a, b with
  | NaN, _ | _, NaN => false
  | _, _ => negb (num_leb a b)
  end.

Definition is_NaN (a : jsnum) : bool :=
  match a with NaN => true | _ => false end.

(** [Math.min(a, b)] and [Math.max(a, b)]: NaN if either argument is. *)
Definition Math_min (a b : jsnum) : jsnum :=
  match a, b with
  | NaN, _ | _, NaN => NaN
  | _, _ => if num_leb a b then a else b
  end.

Definition Math_max (a b : jsnum) : jsnum :=
  match a, b with
  | NaN, _ | _, NaN => NaN
  | _, _ => if num_leb a b then b else a
  end.

(** [Math.floor]. *)
Definition Math_floor (a : jsnum) : jsnum :=
  match a with
  | Fin q => Fin (inject_Z (Qfloor q))
  | other => other
  end.

(** ToBoolean on a number: NaN and zero are falsy. *)
Definition num_truthy (a : jsnum) : bool :=
  match a with
  | NaN => false
  | Fin q => negb (Qeq_bool q 0)
  | NegInf | PosInf => true
  end.

(** What the engine supplies: IEEE-754 arithmetic with its rounding, the
    global functions [parseInt] and [parseFloat], Number-to-string conversion
    (template literals and [JSON.stringify]), [Date.prototype.toISOString]
    on a time in milliseconds and [String.prototype.toLowerCase] with its
    Unicode case mapping. *)
Class Engine : Type := {
  num_mul : jsnum -> jsnum -> jsnum;
  num_div : jsnum -> jsnum -> jsnum;
  num_sub : jsnum -> jsnum -> jsnum;
  num_mod : jsnum -> jsnum -> jsnum;
  parseInt : string -> jsnum;
  parseFloat : string -> jsnum;
  Number_toString : jsnum -> string;
  toISOString : Z -> string;
  toLowerCase : string -> string
}.

(* ===================================================================== *)
(** ** Strings *)
(* ===================================================================== *)

Definition dquote : ascii := ascii_of_nat 34.
Definition backslash : ascii := ascii_of_nat 92.
Definition newline : string := String (ascii_of_nat 10) EmptyString.

(** [s.split('-')[0]]: the prefix of [s] before its first ['-'] (all of [s]
    when it has none; [split] never returns an empty array). *)
Fixpoint before_dash (s : string) : string :=
  match s with
  | EmptyString => EmptyString
  | String c rest =>
      if Ascii.eqb c "-"%char then EmptyString else String c (before_dash rest)
  end.

(** [s.length]: the number of UTF-16 code units of the string whose UTF-8
    encoding is [s].  A character of one, two or three bytes is one unit
    and is counted at its first byte; a character of four bytes is a
    surrogate pair, two units, counted at its first two bytes; the other
    continuation bytes count for nothing. *)
Fixpoint js_length (s : string) : nat :=
  match s with
  | EmptyString => 0%nat
  | String c rest =>
      let n := nat_of_ascii c in
      if (n <? 128)%nat then S (js_length rest)
      else if (n <? 192)%nat then js_length rest
      else if (n <? 240)%nat then S (js_length rest)
      else
        match rest with
        | String _ rest' => S (S (js_length rest'))
        | EmptyString => 1%nat
        end
  end.

Definition str_truthy (s : string) : bool :=
  match s with EmptyString => false | _ => true end.

Fixpoint join (sep : string) (parts : list string) : string :=
  match parts with
  | [] => ""
  | [p] => p
  | p :: rest => p +:+ sep +:+ join sep rest
  end.

Fixpoint repeat_char (c : ascii) (n : nat) : string :=
  match n with
  | O => EmptyString
  | S k => String c (repeat_char c k)
  end.

(* ===================================================================== *)
(** ** JavaScript values and JSON.stringify *)
(* ===================================================================== *)

(** The values that reach the framework from a game (hook results, metadata,
    custom configuration).  [JBigInt] is the value [JSON.stringify] cannot
    serialise: it throws a TypeError on it. *)
Inductive json : Type :=
| JUndefined
| JNull
| JBool (b : bool)
| JNum (n : jsnum)
| JBigInt (z : Z)
| JStr (s : string)
| JArr (items : list json)
| JObj (props : list (string * json)).

(** ToBoolean. *)
Definition truthy (v : json) : bool :=
  match v with
  | JUndefined | JNull => false
  | JBool b => b
  | JNum n => num_truthy n
  | JBigInt z => negb (z =? 0)%Z
  | JStr s => str_truthy s
  | JArr _ | JObj _ => true
  end.

Definition hex_digit (n : nat) : ascii :=
  if (n <? 10)%nat then ascii_of_nat (48 + n) else ascii_of_nat (87 + n).

(** QuoteJSONString, one character at a time. *)
Definition escape_char (c : ascii) : string :=
  let n := nat_of_ascii c in
  if Ascii.eqb c dquote then String backslash (String dquote EmptyString)
  else if Ascii.eqb c backslash then String backslash (String backslash EmptyString)
  else if (n =? 8)%nat then String backslash "b"
  else if (n =? 9)%nat then String backslash "t"
  else if (n =? 10)%nat then String backslash "n"
  else if (n =? 12)%nat then String backslash "f"
  else if (n =? 13)%nat then String backslash "r"
  else if (n <? 32)%nat then
    String backslash ("u00" +:+ String (hex_digit (n / 16)) (String (hex_digit (n mod 16)) EmptyString))
  else String c EmptyString.

Fixpoint escape (s : string) : string :=
  match s with
  | EmptyString => EmptyString
  | String c rest => escape_char c +:+ escape rest
  end.

Definition quote (s : string) : string :=
  String dquote (escape s +:+ String dquote EmptyString).

(** The three results of serialising one value: a TypeError, nothing (the
    value is [undefined]), or text. *)
Inductive ser : Type :=
| SThrow
| SOmit
| SText (s : string).

Section Serialise.
Context {E : Engine}.

Fixpoint serialize (v : json) : ser :=
  match v with
  | JUndefined => SOmit
  | JNull => SText "null"
  | JBool b => SText (if b then "true" else "false")
  | JNum n => SText (match n with Fin _ => Number_toString n | _ => "null" end)
  | JBigInt _ => SThrow
  | JStr s => SText (quote s)
  | JArr items =>
      let fix elems (l : list json) : option (list string) :=
        match l with
        | [] => Some []
        | x :: r =>
            match serialize x, elems r with
            | SThrow, _ | _, None => None
            | SOmit, Some rs => Some ("null" :: rs)
            | SText s, Some rs => Some (s :: rs)
            end
        end in
      match elems items with
      | None => SThrow
      | Some parts => SText ("[" +:+ join "," parts +:+ "]")
      end
  | JObj props =>
      let fix members (l : list (string * json)) : option (list string) :=
        match l with
        | [] => Some []
        | (k, x) :: r =>
            match serialize x, members r with
            | SThrow, _ | _, None => None
            | SOmit, Some rs => Some rs
            | SText s, Some rs => Some ((quote k +:+ ":" +:+ s) :: rs)
            end
        end in
      match members props with
      | None => SThrow
      | Some parts => SText ("{" +:+ join "," parts +:+ "}")
      end
  end.

(** [JSON.stringify] applied to an object literal: [None] when it throws. *)
Definition JSON_stringify (props : list (string * json)) : option string :=
  match serialize (JObj props) with
  | SText s => Some s
  | _ => None
  end.

End Serialise.

(* ===================================================================== *)
(** ** The object's data *)
(* ===================================================================== *)

(** [this.config].  [None] stands for [undefined] in [gameId] and [gameName]
    (a missing property of the constructor's argument) and for [null] in
    [timeLimit], [sessionId], [userId] and [language]. *)
Module Config.
Record t : Type := mk {
  gameId : option string;
  gameName : option string;
  version : string;
  difficulty : jsnum;
  timeLimit : option jsnum;
  timeModifier : jsnum;
  hintsEnabled : bool;
  hintsCount : jsnum;
  soundEnabled : bool;
  hapticsEnabled : bool;
  scoreModifier : jsnum;
  penaltyEnabled : bool;
  sessionId : option string;
  userId : option Z;
  language : option string;
  custom : json
}.

Definition set_difficulty (v : jsnum) (c : t) : t :=
  mk (gameId c) (gameName c) (version c) v (timeLimit c) (timeModifier c)
     (hintsEnabled c) (hintsCount c) (soundEnabled c) (hapticsEnabled c)
     (scoreModifier c) (penaltyEnabled c) (sessionId c) (userId c) (language c) (custom c).

Definition set_timeLimit (v : option jsnum) (c : t) : t :=
  mk (gameId c) (gameName c) (version c) (difficulty c) v (timeModifier c)
     (hintsEnabled c) (hintsCount c) (soundEnabled c) (hapticsEnabled c)
     (scoreModifier c) (penaltyEnabled c) (sessionId c) (userId c) (language c) (custom c).

Definition set_timeModifier (v : jsnum) (c : t) : t :=
  mk (gameId c) (gameName c) (version c) (difficulty c) (timeLimit c) v
     (hintsEnabled c) (hintsCount c) (soundEnabled c) (hapticsEnabled c)
     (scoreModifier c) (penaltyEnabled c) (sessionId c) (userId c) (language c) (custom c).

Definition set_hintsCount (v : jsnum) (c : t) : t :=
  mk (gameId c) (gameName c) (version c) (difficulty c) (timeLimit c) (timeModifier c)
     (hintsEnabled c) v (soundEnabled c) (hapticsEnabled c)
     (scoreModifier c) (penaltyEnabled c) (sessionId c) (userId c) (language c) (custom c).

Definition set_scoreModifier (v : jsnum) (c : t) : t :=
  mk (gameId c) (gameName c) (version c) (difficulty c) (timeLimit c) (timeModifier c)
     (hintsEnabled c) (hintsCount c) (soundEnabled c) (hapticsEnabled c)
     v (penaltyEnabled c) (sessionId c) (userId c) (language c) (custom c).

Definition set_sessionId (v : option string) (c : t) : t :=
  mk (gameId c) (gameName c) (version c) (difficulty c) (timeLimit c) (timeModifier c)
     (hintsEnabled c) (hintsCount c) (soundEnabled c) (hapticsEnabled c)
     (scoreModifier c) (penaltyEnabled c) v (userId c) (language c) (custom c).

Definition set_userId (v : option Z) (c : t) : t :=
  mk (gameId c) (gameName c) (version c) (difficulty c) (timeLimit c) (timeModifier c)
     (hintsEnabled c) (hintsCount c) (soundEnabled c) (hapticsEnabled c)
     (scoreModifier c) (penaltyEnabled c) (sessionId c) v (language c) (custom c).

Definition set_language (v : option string) (c : t) : t :=
  mk (gameId c) (gameName c) (version c) (difficulty c) (timeLimit c) (timeModifier c)
     (hintsEnabled c) (hintsCount c) (soundEnabled c) (hapticsEnabled c)
     (scoreModifier c) (penaltyEnabled c) (sessionId c) (userId c) v (custom c).
End Config.

(** [this.state]; [status] is the string the code stores. *)
Module State.
Record t : Type := mk {
  status : string;
  score : jsnum;
  moves : jsnum;
  mistakes : jsnum;
  hintsUsed : jsnum;
  startTime : option jsnum;
  endTime : option jsnum;
  timeElapsed : jsnum
}.

Definition set_status (v : string) (s : t) : t :=
  mk v (score s) (moves s) (mistakes s) (hintsUsed s) (startTime s) (endTime s) (timeElapsed s).

Definition set_startTime (v : option jsnum) (s : t) : t :=
  mk (status s) (score s) (moves s) (mistakes s) (hintsUsed s) v (endTime s) (timeElapsed s).

Definition set_endTime (v : option jsnum) (s : t) : t :=
  mk (status s) (score s) (moves s) (mistakes s) (hintsUsed s) (startTime s) v (timeElapsed s).

Definition set_timeElapsed (v : jsnum) (s : t) : t :=
  mk (status s) (score s) (moves s) (mistakes s) (hintsUsed s) (startTime s) (endTime s) v.
End State.

(** One entry of [this.milestones]. *)
Module Milestone.
Record t : Type := mk {
  name : string;
  timestamp : jsnum;
  gameTime : jsnum;
  score : jsnum;
  moves : jsnum;
  mistakes : jsnum;
  hintsUsed : jsnum;
  gameData : json;
  metadata : json
}.
End Milestone.

(** What [getMilestonesSummary] returns when it does not return [null].  An
    array read out of range gives [undefined], here [None]. *)
Module Summary.
Record t : Type := mk {
  count : nat;
  milestones : list Milestone.t;
  firstMilestone : option Milestone.t;
  lastMilestone : option Milestone.t
}.
End Summary.

(** The object [generateResult] returns and [sendResult] receives. *)
Module Result.
Record t : Type := mk {
  sessionId : option string;
  gameId : option string;
  gameName : option string;
  userId : option Z;
  timestamp : string;
  success : bool;
  status : string;
  score : jsnum;
  finalScore : jsnum;
  moves : jsnum;
  mistakes : jsnum;
  hintsUsed : jsnum;
  timeElapsed : jsnum;
  timeLimit : option jsnum;
  timeRemaining : option jsnum;
  performance : jsnum;
  rating : string;
  difficulty : jsnum;
  language : option string;
  timeModifier : jsnum;
  scoreModifier : jsnum;
  hintsEnabled : bool;
  optimal : json;
  achievements : json;
  milestones : option Summary.t;
  gameData : json;
  outputString : string
}.
End Result.

(** [this]: the fields the constructor creates. *)
Module Game.
Record t : Type := mk {
  config : Config.t;
  state : State.t;
  milestones : list Milestone.t;
  translations : gmap string (gmap string string)
}.

Definition set_config (v : Config.t) (g : t) : t :=
  mk v (state g) (milestones g) (translations g).
Definition set_state (v : State.t) (g : t) : t :=
  mk (config g) v (milestones g) (translations g).
Definition set_milestones (v : list Milestone.t) (g : t) : t :=
  mk (config g) (state g) v (translations g).
Definition set_translations (v : gmap string (gmap string string)) (g : t) : t :=
  mk (config g) (state g) (milestones g) v.
End Game.

(* ===================================================================== *)
(** ** The host and the page *)
(* ===================================================================== *)

Record JSError : Type := mkError {
  err_name : string;
  message : string
}.

Definition TypeError (msg : string) : JSError := mkError "TypeError" msg.

(** [tg.initDataUnsafe.user]. *)
Module User.
Record t : Type := mk {
  id : Z;
  language_code : option string
}.
End User.

(** The bridge object [window.Telegram.WebApp] as the class uses it.
    [sendData] is [None] when the property is not a function; otherwise it
    says, for each payload, whether the host's function returns ([None]) or
    throws.  [query_id] is [initDataUnsafe.query_id], [None] when it is
    absent. *)
Module Bridge.
Record t : Type := mk {
  user : option User.t;
  initData : string;
  sendData : option (string -> option JSError);
  query_id : option string
}.
End Bridge.

(** The page: the decoded pairs of [window.location.search] in order, the
    bridge, and whether the page runs in a frame ([window.parent !== window]). *)
Module Env.
Record t : Type := mk {
  search : list (string * string);
  tg : Bridge.t;
  embedded : bool
}.
End Env.

Inductive level : Type := LLog | LWarn | LError.

(** What a method does to the outside, in the order it does it.  Console
    output is recorded by severity and message text. *)
Inductive action : Type :=
| Console (l : level) (msg : string)
| StorageSet (key value : string)
| SendData (payload : string)
| Alert (msg : string)
| Confirm (msg : string)
| Close
| Ready
| Expand
| OnBackButton
| OnEvent (eventType : string)
| PostMessage (msg : json)
| Dom (what : string).

(** A synchronous step, or a timer armed with [setTimeout]. *)
Inductive step : Type :=
| Act (a : action)
| SetTimeout (callback : list action) (ms : Z).

(** An effect of a method: a step, or a [fetch] with what its continuations
    do on fulfilment and on rejection. *)
Inductive effect : Type :=
| Now (s : step)
| Fetch (url : string) (headers : list (string * string)) (body : string)
        (on_fulfilled on_rejected : list step).

Record World : Type := mkWorld {
  this : Game.t;
  env : Env.t;
  localStorage : gmap string string;
  clock : Z
}.

Definition set_this (g : Game.t) (w : World) : World :=
  mkWorld g (env w) (localStorage w) (clock w).
Definition set_localStorage (m : gmap string string) (w : World) : World :=
  mkWorld (this w) (env w) m (clock w).
Definition with_config (c : Config.t) (w : World) : World :=
  set_this (Game.set_config c (this w)) w.

(* ===================================================================== *)
(** ** Computations *)
(* ===================================================================== *)

Inductive outcome (A : Type) : Type :=
| Returned (a : A)
| Thrown (e : JSError).
Arguments Returned {A} a.
Arguments Thrown {A} e.

Record Run (A : Type) : Type := mkRun {
  result : outcome A;
  final : World;
  emitted : list effect
}.
Arguments mkRun {A} _ _ _.
Arguments result {A} _.
Arguments final {A} _.
Arguments emitted {A} _.

Definition M (A : Type) : Type := World -> Run A.

#[global] Instance M_ret : MRet M :=
  fun A a w => mkRun (Returned a) w [].

#[global] Instance M_bind : MBind M :=
  fun A B f m w =>
    let r := m w in
    match result r with
    | Returned a =>
        let r' := f a (final r) in
        mkRun (result r') (final r') (emitted r ++ emitted r')
    | Thrown e => mkRun (Thrown e) (final r) (emitted r)
    end.

#[global] Instance M_throw : MThrow JSError M :=
  fun A e w => mkRun (Thrown e) w [].

(** [try { body } catch (e) { handler e }]. *)
Definition try_catch {A} (body : M A) (handler : JSError -> M A) : M A :=
  fun w =>
    let r := body w in
    match result r with
    | Returned a => r
    | Thrown e =>
        let r' := handler e (final r) in
        mkRun (result r') (final r') (emitted r ++ emitted r')
    end.

Definition get_world : M World := fun w => mkRun (Returned w) w [].
Definition get_this : M Game.t := fun w => mkRun (Returned (this w)) w [].
Definition put_this (g : Game.t) : M unit := fun w => mkRun (Returned tt) (set_this g w) [].
Definition emit (e : effect) : M unit := fun w => mkRun (Returned tt) w [e].
Definition perform (a : action) : M unit := emit (Now (Act a)).

Definition console_log (msg : string) : M unit := perform (Console LLog msg).
Definition console_warn (msg : string) : M unit := perform (Console LWarn msg).
Definition console_error (msg : string) : M unit := perform (Console LError msg).
Definition alert (msg : string) : M unit := perform (Alert msg).

(** [Date.now()]. *)
Definition Date_now : M jsnum := fun w => mkRun (Returned (num_of_Z (clock w))) w [].

(** [localStorage.setItem(key, value)]. *)
Definition setItem (key value : string) : M unit :=
  fun w => mkRun (Returned tt)
                 (set_localStorage (<[key := value]> (localStorage w)) w)
                 [Now (Act (StorageSet key value))].

(** A call of [JSON.stringify] inside a method. *)
Definition stringify `{Engine} (props : list (string * json)) : M string :=
  match JSON_stringify props with
  | Some s => mret s
  | None => mthrow (TypeError "Do not know how to serialize a BigInt")
  end.

(** [new URLSearchParams(window.location.search)]: [has] and [get]. *)
Definition has (params : list (string * string)) (key : string) : bool :=
  existsb (fun kv => String.eqb (fst kv) key) params.

Fixpoint get (params : list (string * string)) (key : string) : option string :=
  match params with
  | [] => None
  | (k, v) :: rest => if String.eqb k key then Some v else get rest key
  end.

(* ===================================================================== *)
(** ** Coercions the code relies on *)
(* ===================================================================== *)

(** ToString of a string-or-null (template literals, [parseInt]'s argument). *)
Definition to_String (o : option string) : string :=
  match o with Some s => s | None => "null" end.

(** ToString of a string-or-undefined. *)
Definition to_String_undef (o : option string) : string :=
  match o with Some s => s | None => "undefined" end.

(** ToNumber of a number-or-null. *)
Definition to_Number (o : option jsnum) : jsnum :=
  match o with Some n => n | None => Fin 0 end.

Definition opt_str_truthy (o : option string) : bool :=
  match o with Some s => str_truthy s | None => false end.

Definition opt_num_truthy (o : option jsnum) : bool :=
  match o with Some n => num_truthy n | None => false end.

(** [a || b] on strings-or-null. *)
Definition str_or (a b : option string) : option string :=
  if opt_str_truthy a then a else b.

(** [a || b] on values. *)
Definition or_else (a b : json) : json := if truthy a then a else b.

Definition jstr_null (o : option string) : json :=
  match o with Some s => JStr s | None => JNull end.
Definition jstr_undef (o : option string) : json :=
  match o with Some s => JStr s | None => JUndefined end.
Definition jnum_null (o : option jsnum) : json :=
  match o with Some n => JNum n | None => JNull end.
Definition jid_null (o : option Z) : json :=
  match o with Some z => JNum (num_of_Z z) | None => JNull end.

(* ===================================================================== *)
(** ** The class: methods shared by the three copies *)
(* ===================================================================== *)

(** The methods a game overrides.  [getOptimalScore] returns [null] ([None])
    or a number. *)
Class Hooks : Type := {
  getOptimalScore : Game.t -> option jsnum;
  isOptimalSolution : Game.t -> json;
  checkAchievements : Game.t -> json;
  getGameSpecificData : Game.t -> json;
  captureGameState : Game.t -> json
}.

(** The bodies the base class gives them (game-interface.js:245, 534-537). *)
Definition BaseHooks : Hooks := {|
  getOptimalScore := fun _ => None;
  isOptimalSolution := fun _ => JBool false;
  checkAchievements := fun _ => JArr [];
  getGameSpecificData := fun _ => JObj [];
  captureGameState := fun _ => JObj []
|}.

(** The constructor's argument. *)
Module GameConfig.
Record t : Type := mk {
  gameId : option string;
  gameName : option string;
  custom : json
}.
End GameConfig.

Definition modify_config (f : Config.t -> Config.t) : M unit :=
  g ← get_this; put_this (Game.set_config (f (Game.config g)) g).

Definition modify_state (f : State.t -> State.t) : M unit :=
  g ← get_this; put_this (Game.set_state (f (Game.state g)) g).

(** game-interface.js:524 *)
Definition getRating (performance : jsnum) : string :=
  if num_geb performance (Fin 95) then "S"
  else if num_geb performance (Fin 85) then "A"
  else if num_geb performance (Fin 75) then "B"
  else if num_geb performance (Fin 60) then "C"
  else if num_geb performance (Fin 40) then "D"
  else "F".

(** game-interface.js:253 *)
Definition getMilestonesSummary : M (option Summary.t) :=
  g ← get_this;
  let ms := Game.milestones g in
  if (length ms =? 0)%nat then mret None
  else mret (Some (Summary.mk (length ms) ms (ms !! 0%nat) (ms !! (length ms - 1)%nat))).

Section Methods.
Context {E : Engine} {H : Hooks}.

(** The initial [this.config] and [this.state] (game-interface.js:12-51). *)
Definition default_config (gc : GameConfig.t) : Config.t :=
  Config.mk (GameConfig.gameId gc) (GameConfig.gameName gc) "1.0.0"
            (Fin 1) None (Fin 1) true (Fin 3) true true
            (Fin 1) true None None (Some "en")
            (or_else (GameConfig.custom gc) (JObj [])).

Definition initial_state : State.t :=
  State.mk "idle" (Fin 0) (Fin 0) (Fin 0) (Fin 0) None None (Fin 0).

Definition initial_game (gc : GameConfig.t) : Game.t :=
  Game.mk (default_config gc) initial_state [] ∅.

(** game-interface.js:109 *)
Definition initTelegram : M unit :=
  perform Ready ;;
  perform Expand ;;
  perform OnBackButton ;;
  perform (OnEvent "themeChanged").

(** game-interface.js:65 *)
Definition parseInputParams : M unit :=
  w ← get_world;
  let urlParams := Env.search (env w) in
  (if has urlParams "difficulty"
   then modify_config (Config.set_difficulty (parseInt (to_String (get urlParams "difficulty"))))
   else mret tt) ;;
  (if has urlParams "timeLimit"
   then modify_config (Config.set_timeLimit (Some (parseInt (to_String (get urlParams "timeLimit")))))
   else mret tt) ;;
  (if has urlParams "timeModifier"
   then modify_config (Config.set_timeModifier (parseFloat (to_String (get urlParams "timeModifier"))))
   else mret tt) ;;
  (if has urlParams "hints"
   then modify_config (Config.set_hintsCount (parseInt (to_String (get urlParams "hints"))))
   else mret tt) ;;
  (if has urlParams "sessionId"
   then modify_config (Config.set_sessionId (get urlParams "sessionId"))
   else mret tt) ;;
  (if has urlParams "scoreModifier"
   then modify_config (Config.set_scoreModifier (parseFloat (to_String (get urlParams "scoreModifier"))))
   else mret tt) ;;
  (if has urlParams "lang" || has urlParams "language"
   then modify_config (Config.set_language (str_or (get urlParams "lang") (get urlParams "language")))
   else mret tt) ;;
  match Bridge.user (Env.tg (env w)) with
  | Some user =>
      modify_config (Config.set_userId (Some (User.id user))) ;;
      if negb (has urlParams "lang") && negb (has urlParams "language")
      then modify_config (Config.set_language (str_or (User.language_code user) (Some "en")))
      else mret tt
  | None => mret tt
  end ;;
  g ← get_this;
  match Config.language (Game.config g) with
  | None => mthrow (TypeError "Cannot read properties of null (reading 'split')")
  | Some l => modify_config (Config.set_language (Some (toLowerCase (before_dash l))))
  end ;;
  g ← get_this;
  (if opt_num_truthy (Config.timeLimit (Game.config g))
   then modify_config (Config.set_timeLimit
          (Some (Math_floor (num_mul (to_Number (Config.timeLimit (Game.config g)))
                                     (Config.timeModifier (Game.config g))))))
   else mret tt) ;;
  console_log "📥 Parsed config:".

(** game-interface.js:11: the constructor run on a page. *)
Definition constructor (gc : GameConfig.t) (page : Env.t)
    (storage : gmap string string) (time : Z) : Run unit :=
  (initTelegram ;; parseInputParams) (mkWorld (initial_game gc) page storage time).

(** game-interface.js:478 *)
Definition sendEvent (eventName : string) (eventData : json) : M unit :=
  w ← get_world;
  now ← Date_now;
  let event := JObj [("type", JStr "GAME_EVENT");
                     ("event", JStr eventName);
                     ("gameId", jstr_undef (Config.gameId (Game.config (this w))));
                     ("sessionId", jstr_null (Config.sessionId (Game.config (this w))));
                     ("timestamp", JNum now);
                     ("data", eventData)] in
  (if Env.embedded (env w) then perform (PostMessage event) else mret tt) ;;
  console_log ("📊 Event: " +:+ eventName).

(** game-interface.js:205 *)
Definition recordMilestone (milestoneName : string) (metadata : json) : M Milestone.t :=
  g ← get_this;
  now ← Date_now;
  let st := Game.state g in
  let milestone :=
    Milestone.mk milestoneName now
      (if opt_num_truthy (State.startTime st)
       then Math_floor (num_div (num_sub now (to_Number (State.startTime st))) (Fin 1000))
       else Fin 0)
      (State.score st) (State.moves st) (State.mistakes st) (State.hintsUsed st)
      (captureGameState g) metadata in
  put_this (Game.set_milestones (Game.milestones g ++ [milestone]) g) ;;
  console_log ("📍 Milestone: " +:+ milestoneName) ;;
  sendEvent "milestone_reached"
    (JObj [("milestone", JStr milestoneName);
           ("gameTime", JNum (Milestone.gameTime milestone));
           ("score", JNum (State.score st))]) ;;
  mret milestone.

(** game-interface.js:269 *)
Definition start : M unit :=
  modify_state (State.set_status "playing") ;;
  now ← Date_now;
  modify_state (State.set_startTime (Some now)) ;;
  g ← get_this;
  sendEvent "game_started"
    (JObj [("difficulty", JNum (Config.difficulty (Game.config g)));
           ("timeLimit", jnum_null (Config.timeLimit (Game.config g)));
           ("language", jstr_null (Config.language (Game.config g)))]) ;;
  console_log "🎮 Game started".

(** game-interface.js:540 *)
Definition formatTime (seconds : jsnum) : string :=
  let mins := Math_floor (num_div seconds (Fin 60)) in
  let secs := num_mod seconds (Fin 60) in
  if num_gtb mins (Fin 0)
  then Number_toString mins +:+ "m " +:+ Number_toString secs +:+ "s"
  else Number_toString secs +:+ "s".

(** [difficultyNames[i]] for [difficultyNames = ['Easy', 'Medium', 'Hard',
    'Expert']], interpolated in a template: ["undefined"] off the array. *)
Definition difficultyName (i : jsnum) : string :=
  match i with
  | Fin q =>
      if Qeq_bool q 0 then "Easy"
      else if Qeq_bool q 1 then "Medium"
      else if Qeq_bool q 2 then "Hard"
      else if Qeq_bool q 3 then "Expert"
      else "undefined"
  | _ => "undefined"
  end.

(** game-interface.js:498 *)
Definition generateOutputString (g : Game.t) (success : bool) : string :=
  let emoji := if success then "🎉" else "😔" in
  let status := if success then "Completed" else "Failed" in
  let cfg := Game.config g in
  let st := Game.state g in
  let output := emoji +:+ " " +:+ to_String_undef (Config.gameName cfg) +:+ " - " +:+ status +:+ newline in
  let output := output +:+ "📊 Difficulty: "
                  +:+ difficultyName (num_sub (Config.difficulty cfg) (Fin 1)) +:+ newline in
  let output := output +:+ "⭐ Score: " +:+ Number_toString (State.score st) +:+ newline in
  let output := output +:+ "🎯 Moves: " +:+ Number_toString (State.moves st) +:+ newline in
  let output :=
    if num_gtb (State.mistakes st) (Fin 0)
    then output +:+ "❌ Mistakes: " +:+ Number_toString (State.mistakes st) +:+ newline
    else output in
  let output :=
    if num_truthy (State.timeElapsed st)
    then output +:+ "⏱️ Time: " +:+ formatTime (State.timeElapsed st) +:+ newline
    else output in
  let output :=
    if num_gtb (State.hintsUsed st) (Fin 0)
    then output +:+ "💡 Hints used: " +:+ Number_toString (State.hintsUsed st) +:+ newline
    else output in
  output.

(** The local [performance] of [generateResult] (game-interface.js:293-294). *)
Definition raw_performance (g : Game.t) : jsnum :=
  match getOptimalScore g with
  | Some optimalScore =>
      if num_truthy optimalScore
      then Math_min (Fin 100)
             (num_mul (num_div (State.score (Game.state g)) optimalScore) (Fin 100))
      else Fin 100
  | None => Fin 100
  end.

(** game-interface.js:292 *)
Definition generateResult (success : bool) : M Result.t :=
  w ← get_world;
  let g := this w in
  let cfg := Game.config g in
  let st := Game.state g in
  let performance := raw_performance g in
  milestones ← getMilestonesSummary;
  mret (Result.mk
    (Config.sessionId cfg)
    (Config.gameId cfg)
    (Config.gameName cfg)
    (Config.userId cfg)
    (toISOString (clock w))
    success
    (State.status st)
    (State.score st)
    (Math_floor (num_mul (State.score st) (Config.scoreModifier cfg)))
    (State.moves st)
    (State.mistakes st)
    (State.hintsUsed st)
    (State.timeElapsed st)
    (Config.timeLimit cfg)
    (if opt_num_truthy (Config.timeLimit cfg)
     then Some (num_sub (to_Number (Config.timeLimit cfg)) (State.timeElapsed st))
     else None)
    (Math_min (Fin 100) (Math_max (Fin 0) performance))
    (getRating performance)
    (Config.difficulty cfg)
    (Config.language cfg)
    (Config.timeModifier cfg)
    (Config.scoreModifier cfg)
    (Config.hintsEnabled cfg)
    (isOptimalSolution g)
    (checkAchievements g)
    milestones
    (getGameSpecificData g)
    (generateOutputString g success)).

End Methods.

(* ===================================================================== *)
(** ** Serialised forms of a result *)
(* ===================================================================== *)

Definition milestone_json (m : Milestone.t) : json :=
  JObj [("name", JStr (Milestone.name m));
        ("timestamp", JNum (Milestone.timestamp m));
        ("gameTime", JNum (Milestone.gameTime m));
        ("state", JObj [("score", JNum (Milestone.score m));
                        ("moves", JNum (Milestone.moves m));
                        ("mistakes", JNum (Milestone.mistakes m));
                        ("hintsUsed", JNum (Milestone.hintsUsed m))]);
        ("gameData", Milestone.gameData m);
        ("metadata", Milestone.metadata m)].

Definition milestone_opt_json (m : option Milestone.t) : json :=
  match m with Some x => milestone_json x | None => JUndefined end.

Definition summary_json (s : option Summary.t) : json :=
  match s with
  | None => JNull
  | Some x =>
      JObj [("count", JNum (num_of_Z (Z.of_nat (Summary.count x))));
            ("milestones", JArr (map milestone_json (Summary.milestones x)));
            ("firstMilestone", milestone_opt_json (Summary.firstMilestone x));
            ("lastMilestone", milestone_opt_json (Summary.lastMilestone x))]
  end.

(** The properties of a result in the order [generateResult] writes them:
    what [JSON.stringify(result)] walks. *)
Definition result_props (r : Result.t) : list (string * json) :=
  [("sessionId", jstr_null (Result.sessionId r));
   ("gameId", jstr_undef (Result.gameId r));
   ("gameName", jstr_undef (Result.gameName r));
   ("userId", jid_null (Result.userId r));
   ("timestamp", JStr (Result.timestamp r));
   ("success", JBool (Result.success r));
   ("status", JStr (Result.status r));
   ("score", JNum (Result.score r));
   ("finalScore", JNum (Result.finalScore r));
   ("moves", JNum (Result.moves r));
   ("mistakes", JNum (Result.mistakes r));
   ("hintsUsed", JNum (Result.hintsUsed r));
   ("timeElapsed", JNum (Result.timeElapsed r));
   ("timeLimit", jnum_null (Result.timeLimit r));
   ("timeRemaining", jnum_null (Result.timeRemaining r));
   ("performance", JNum (Result.performance r));
   ("rating", JStr (Result.rating r));
   ("difficulty", JNum (Result.difficulty r));
   ("language", jstr_null (Result.language r));
   ("modifiers", JObj [("timeModifier", JNum (Result.timeModifier r));
                       ("scoreModifier", JNum (Result.scoreModifier r));
                       ("hintsEnabled", JBool (Result.hintsEnabled r))]);
   ("optimal", Result.optimal r);
   ("achievements", Result.achievements r);
   ("milestones", summary_json (Result.milestones r));
   ("gameData", Result.gameData r);
   ("outputString", JStr (Result.outputString r))].

(** [result.milestones?.count || 0] *)
Definition milestoneCount (r : Result.t) : nat :=
  match Result.milestones r with
  | Some s => if (Summary.count s =? 0)%nat then 0%nat else Summary.count s
  | None => 0%nat
  end.

(** [compactResult] of game-interface.js:362-400. *)
Definition compactResult (r : Result.t) : list (string * json) :=
  [("sessionId", jstr_null (Result.sessionId r));
   ("gameId", jstr_undef (Result.gameId r));
   ("gameName", jstr_undef (Result.gameName r));
   ("userId", jid_null (Result.userId r));
   ("timestamp", JStr (Result.timestamp r));
   ("success", JBool (Result.success r));
   ("status", JStr (Result.status r));
   ("score", JNum (Result.score r));
   ("finalScore", JNum (Result.finalScore r));
   ("moves", JNum (Result.moves r));
   ("mistakes", JNum (Result.mistakes r));
   ("hintsUsed", JNum (Result.hintsUsed r));
   ("timeElapsed", JNum (Result.timeElapsed r));
   ("timeLimit", jnum_null (Result.timeLimit r));
   ("timeRemaining", jnum_null (Result.timeRemaining r));
   ("performance", JNum (Result.performance r));
   ("rating", JStr (Result.rating r));
   ("difficulty", JNum (Result.difficulty r));
   ("language", jstr_null (Result.language r));
   ("optimal", Result.optimal r);
   ("achievements", or_else (Result.achievements r) (JArr []));
   ("milestoneCount", JNum (num_of_Z (Z.of_nat (milestoneCount r))))].

(** [ultraCompact] of game-interface.js:412-422. *)
Definition ultraCompact (r : Result.t) : list (string * json) :=
  [("sessionId", jstr_null (Result.sessionId r));
   ("gameId", jstr_undef (Result.gameId r));
   ("userId", jid_null (Result.userId r));
   ("success", JBool (Result.success r));
   ("score", JNum (Result.score r));
   ("moves", JNum (Result.moves r));
   ("timeElapsed", JNum (Result.timeElapsed r));
   ("rating", JStr (Result.rating r));
   ("difficulty", JNum (Result.difficulty r))].

(** The validation both guarded copies start with:
    [!result.sessionId || !result.gameId]. *)
Definition invalid (r : Result.t) : bool :=
  negb (opt_str_truthy (Result.sessionId r)) || negb (opt_str_truthy (Result.gameId r)).

(** A call of the host's [sendData]: the call is made, then the host's
    function returns or throws. *)
Definition call_sendData (host : string -> option JSError) (payload : string) : M unit :=
  perform (SendData payload) ;;
  match host payload with
  | Some e => mthrow e
  | None => mret tt
  end.

(** [this.tg.sendData(payload)] with no test that the property is a function. *)
Definition tg_sendData (payload : string) : M unit :=
  w ← get_world;
  match Bridge.sendData (Env.tg (env w)) with
  | Some host => call_sendData host payload
  | None => mthrow (TypeError "this.tg.sendData is not a function")
  end.

(** An assignment to a binding declared with [const]: the right-hand side
    has been evaluated; the assignment throws. *)
Definition assign_const (name value : string) : M unit :=
  mthrow (TypeError "Assignment to constant variable.").

(* ===================================================================== *)
(** ** [sendResult], copy by copy *)
(* ===================================================================== *)

(** src/game-interface.js:351 *)
Module Current.
Definition sendResult `{Engine} (r : Result.t) : M unit :=
  console_log "📤 Sending result:" ;;
  if invalid r then
    console_error "❌ Invalid result: missing sessionId or gameId"
  else
    try_catch
      (resultString ← stringify (compactResult r);
       console_log ("📏 Result size: " +:+ pretty (js_length resultString)
                      +:+ " bytes (limit: 4096)") ;;
       (if (4096 <? js_length resultString)%nat then
          console_error ("❌ Result too large: " +:+ pretty (js_length resultString) +:+ " bytes") ;;
          ultra ← stringify (ultraCompact r);
          assign_const "resultString" ultra ;;
          console_log ("📏 Ultra-compact size: " +:+ pretty (js_length resultString) +:+ " bytes")
        else mret tt) ;;
       console_log ("✅ Result validated: " +:+ pretty (js_length resultString) +:+ " bytes") ;;
       w ← get_world;
       match Bridge.sendData (Env.tg (env w)) with
       | Some host =>
           console_log "📤 Calling Telegram.WebApp.sendData()..." ;;
           setItem "game_result_latest" resultString ;;
           setItem "last_send_time" (toISOString (clock w)) ;;
           call_sendData host resultString ;;
           console_log "✅ Data sent! Telegram will close WebApp automatically."
       | None =>
           console_warn "⚠️ Telegram.WebApp.sendData() not available" ;;
           console_log "💾 Saving to localStorage instead" ;;
           setItem ("game_result_" +:+ to_String (Config.sessionId (Game.config (this w))))
                   resultString ;;
           setItem "game_result_latest" resultString ;;
           alert ("Game completed!" +:+ newline +:+ newline
                    +:+ "Result saved to localStorage (testing mode)")
       end)
      (fun e =>
         console_error "❌ Error sending result:" ;;
         now ← Date_now;
         record ← stringify [("error", JStr (message e));
                             ("result", JObj [("sessionId", jstr_null (Result.sessionId r));
                                              ("gameId", jstr_undef (Result.gameId r));
                                              ("score", JNum (Result.score r))])];
         setItem ("game_result_error_" +:+ Number_toString now) record ;;
         alert "Error sending result. Data saved locally for recovery.").
End Current.

(** src/game-interface_working.js:350 *)
Module Working.
Definition sendResult `{Engine} (r : Result.t) : M unit :=
  console_log "📤 Sending result:" ;;
  if invalid r then
    console_error "❌ Invalid result: missing sessionId or gameId"
  else
    try_catch
      (resultString ← stringify (result_props r);
       (if (4096 <? js_length resultString)%nat then
          console_warn ("⚠️ Result size: " +:+ pretty (js_length resultString)
                          +:+ " bytes (limit: 4096)")
        else mret tt) ;;
       console_log ("✅ Result validated: " +:+ pretty (js_length resultString) +:+ " bytes") ;;
       w ← get_world;
       match Bridge.sendData (Env.tg (env w)) with
       | Some host =>
           call_sendData host resultString ;;
           console_log "✅ Result sent via Telegram.WebApp.sendData()" ;;
           emit (Now (SetTimeout [Console LLog "🚪 Closing WebApp..."; Close] 1500))
       | None =>
           console_warn "⚠️ Telegram.WebApp.sendData() not available" ;;
           console_log "💾 Saving to localStorage instead" ;;
           setItem ("game_result_" +:+ to_String (Config.sessionId (Game.config (this w))))
                   resultString ;;
           setItem "game_result_latest" resultString ;;
           alert ("Game completed!" +:+ newline +:+ newline
                    +:+ "Result saved to localStorage (testing mode)")
       end)
      (fun e =>
         console_error "❌ Error sending result:" ;;
         now ← Date_now;
         record ← stringify [("error", JStr (message e));
                             ("result", JObj (result_props r))];
         setItem ("game_result_error_" +:+ Number_toString now) record ;;
         alert "Error sending result. Data saved locally for recovery.").
End Working.

(** src/unnamed/part_000:349 *)
Module Part000.
Definition sendResult `{Engine} (r : Result.t) : M unit :=
  console_log "📤 Sending result:" ;;
  try_catch
    (payload ← stringify (result_props r);
     tg_sendData payload ;;
     console_log "✅ Result sent via sendData")
    (fun e => console_warn "⚠️ sendData failed:") ;;
  w ← get_world;
  (if opt_str_truthy (Config.sessionId (Game.config (this w))) then
     body ← stringify (result_props r);
     emit (Fetch "/api/game-result"
             [("Content-Type", "application/json");
              ("X-Telegram-Init-Data", Bridge.initData (Env.tg (env w)))]
             body
             [Act (Console LLog "✅ Result confirmed by server:"); SetTimeout [Close] 1000]
             [Act (Console LError "❌ Server error:"); SetTimeout [Close] 1000])
   else mret tt) ;;
  stored ← stringify (result_props r);
  setItem ("game_result_" +:+ to_String (Config.sessionId (Game.config (this w)))) stored ;;
  try_catch
    (payload ← stringify (result_props r);
     tg_sendData payload)
    (fun e => console_log "Could not send data to Telegram:").
End Part000.

(** src/game-interface.js:863, the older listing. *)
Module Legacy.

(** The properties of the result the older [generateResult] builds
    (game-interface.js:810-860): no language, no milestones. *)
Definition result_props (r : Result.t) : list (string * json) :=
  [("sessionId", jstr_null (Result.sessionId r));
   ("gameId", jstr_undef (Result.gameId r));
   ("gameName", jstr_undef (Result.gameName r));
   ("userId", jid_null (Result.userId r));
   ("timestamp", JStr (Result.timestamp r));
   ("success", JBool (Result.success r));
   ("status", JStr (Result.status r));
   ("score", JNum (Result.score r));
   ("finalScore", JNum (Result.finalScore r));
   ("moves", JNum (Result.moves r));
   ("mistakes", JNum (Result.mistakes r));
   ("hintsUsed", JNum (Result.hintsUsed r));
   ("timeElapsed", JNum (Result.timeElapsed r));
   ("timeLimit", jnum_null (Result.timeLimit r));
   ("timeRemaining", jnum_null (Result.timeRemaining r));
   ("performance", JNum (Result.performance r));
   ("rating", JStr (Result.rating r));
   ("difficulty", JNum (Result.difficulty r));
   ("modifiers", JObj [("timeModifier", JNum (Result.timeModifier r));
                       ("scoreModifier", JNum (Result.scoreModifier r));
                       ("hintsEnabled", JBool (Result.hintsEnabled r))]);
   ("optimal", Result.optimal r);
   ("achievements", Result.achievements r);
   ("gameData", Result.gameData r);
   ("outputString", JStr (Result.outputString r))].

Definition sendResult `{Engine} (r : Result.t) : M unit :=
  console_log "📤 Sending result:" ;;
  w ← get_world;
  (if opt_str_truthy (Bridge.query_id (Env.tg (env w))) then
     body ← stringify [("query_id", jstr_undef (Bridge.query_id (Env.tg (env w))));
                       ("result", JObj (result_props r))];
     emit (Fetch "/api/game-result"
             [("Content-Type", "application/json")]
             body
             [Act Close]
             [Act (Console LError "Failed to send result:")])
   else mret tt) ;;
  (if Env.embedded (env w) then
     perform (PostMessage (JObj [("type", JStr "GAME_RESULT");
                                 ("payload", JObj (result_props r))]))
   else mret tt) ;;
  stored ← stringify (result_props r);
  setItem ("game_result_" +:+ to_String (Config.sessionId (Game.config (this w)))) stored ;;
  try_catch
    (payload ← stringify (result_props r);
     tg_sendData payload)
    (fun e => console_log "Could not send data to Telegram:").
End Legacy.

(** The three copies of the class with milestones and translations. *)
Inductive copy : Type := current_js | working_js | part_000.

Definition sendResult `{Engine} (c : copy) : Result.t -> M unit :=
  match c with
  | current_js => Current.sendResult
  | working_js => Working.sendResult
  | part_000 => Part000.sendResult
  end.

(* ===================================================================== *)
(** ** The remaining methods *)
(* ===================================================================== *)

Section Lifecycle.
Context {E : Engine} {H : Hooks}.

(** game-interface.js:281 *)
Definition end_ (c : copy) (success : bool) : M Result.t :=
  modify_state (State.set_status (if success then "completed" else "failed")) ;;
  now ← Date_now;
  modify_state (State.set_endTime (Some now)) ;;
  g ← get_this;
  modify_state (State.set_timeElapsed
    (Math_floor (num_div (num_sub (to_Number (State.endTime (Game.state g)))
                                  (to_Number (State.startTime (Game.state g))))
                         (Fin 1000)))) ;;
  result ← generateResult success;
  sendResult c result ;;
  mret result.

(** game-interface.js:546; [confirmed] is what [confirm(...)] answers. *)
Definition handleExit (c : copy) (confirmed : bool) : M unit :=
  g ← get_this;
  if String.eqb (State.status (Game.state g)) "playing" then
    perform (Confirm "Exit game? Progress will be lost.") ;;
    if confirmed then end_ c false ;; mret tt else mret tt
  else perform Close.

(** game-interface.js:556; the document is outside the model, a write to it
    is recorded by name. *)
Definition handleThemeChange : M unit :=
  perform (Dom "--tg-bg") ;;
  perform (Dom "--tg-text") ;;
  console_log "🎨 Theme changed".

(** The property names every plain object inherits from
    [Object.prototype]. *)
Definition Object_prototype : list string :=
  ["constructor"; "hasOwnProperty"; "isPrototypeOf"; "propertyIsEnumerable";
   "toLocaleString"; "toString"; "valueOf"; "__proto__";
   "__defineGetter__"; "__defineSetter__"; "__lookupGetter__"; "__lookupSetter__"].

Definition inherited (name : string) : bool :=
  existsb (String.eqb name) Object_prototype.

(** What [this.translations[lang] && this.translations[lang][key]] finds: a
    truthy text among the own properties, nothing (a falsy value), or a
    value reached through the prototype chain, which is not a text of the
    translations. *)
Inductive looked_up : Type :=
| Found (text : string)
| Nothing
| Foreign.

Definition lookup_text (tr : gmap string (gmap string string)) (lang key : string)
    : looked_up :=
  match tr !! lang with
  | Some dict =>
      match dict !! key with
      | Some text => if str_truthy text then Found text else Nothing
      | None => if inherited key then Foreign else Nothing
      end
  | None => if inherited lang then Foreign else Nothing
  end.

(** game-interface.js:148.  [None] when a read leaves the own properties of
    the translations: what the method returns then is a property of the
    engine's prototype objects, not a text. *)
Definition t (g : Game.t) (key : string) (fallback : option string) : option string :=
  let lang := to_String (Config.language (Game.config g)) in
  match lookup_text (Game.translations g) lang key with
  | Found text => Some text
  | Foreign => None
  | Nothing =>
      match (if negb (String.eqb lang "en")
             then lookup_text (Game.translations g) "en" key else Nothing) with
      | Found text => Some text
      | Foreign => None
      | Nothing => Some (if opt_str_truthy fallback then to_String fallback else key)
      end
  end.

(** game-interface.js:168 *)
Definition applyTranslations : M unit :=
  perform (Dom "[data-i18n]") ;;
  perform (Dom "[data-i18n-placeholder]") ;;
  console_log "✅ Translations applied".

(** game-interface.js:130; [loading] is [document.readyState === 'loading']. *)
Definition setTranslations (translations : gmap string (gmap string string))
    (loading : bool) : M unit :=
  g ← get_this;
  put_this (Game.set_translations translations g) ;;
  console_log "🌍 Translations loaded for:" ;;
  if loading then perform (Dom "DOMContentLoaded") else applyTranslations.

(** A call of one method of the class from outside. *)
Inductive call : Type :=
| call_parseInputParams
| call_initTelegram
| call_setTranslations (translations : gmap string (gmap string string)) (loading : bool)
| call_t (key : string) (fallback : option string)
| call_applyTranslations
| call_recordMilestone (milestoneName : string) (metadata : json)
| call_captureGameState
| call_getMilestonesSummary
| call_start
| call_end (success : bool)
| call_generateResult (success : bool)
| call_sendResult (r : Result.t)
| call_sendEvent (eventName : string) (eventData : json)
| call_generateOutputString (success : bool)
| call_getRating (performance : jsnum)
| call_getOptimalScore
| call_isOptimalSolution
| call_checkAchievements
| call_getGameSpecificData
| call_formatTime (seconds : jsnum)
| call_handleExit (confirmed : bool)
| call_handleThemeChange.

Definition pure_call {A} (f : Game.t -> A) : M unit :=
  g ← get_this; let _ := f g in mret tt.

Definition invoke (c : copy) (k : call) : M unit :=
  match k with
  | call_parseInputParams => parseInputParams
  | call_initTelegram => initTelegram
  | call_setTranslations tr loading => setTranslations tr loading
  | call_t key fallback => pure_call (fun g => t g key fallback)
  | call_applyTranslations => applyTranslations
  | call_recordMilestone n md => recordMilestone n md ;; mret tt
  | call_captureGameState => pure_call captureGameState
  | call_getMilestonesSummary => getMilestonesSummary ;; mret tt
  | call_start => start
  | call_end success => end_ c success ;; mret tt
  | call_generateResult success => generateResult success ;; mret tt
  | call_sendResult r => sendResult c r
  | call_sendEvent n d => sendEvent n d
  | call_generateOutputString success => pure_call (fun g => generateOutputString g success)
  | call_getRating p => pure_call (fun _ => getRating p)
  | call_getOptimalScore => pure_call getOptimalScore
  | call_isOptimalSolution => pure_call isOptimalSolution
  | call_checkAchievements => pure_call checkAchievements
  | call_getGameSpecificData => pure_call getGameSpecificData
  | call_formatTime s => pure_call (fun _ => formatTime s)
  | call_handleExit confirmed => handleExit c confirmed
  | call_handleThemeChange => handleThemeChange
  end.

(** What happens to a constructed object: a method is called, time passes,
    or the game's own code writes the counters the base class only reads. *)
Inductive event : Type :=
| Method (k : call)
| Tick (ms : Z)
| Counters (score moves mistakes hintsUsed : jsnum).

Definition set_counters (score moves mistakes hintsUsed : jsnum) (s : State.t) : State.t :=
  State.mk (State.status s) score moves mistakes hintsUsed
           (State.startTime s) (State.endTime s) (State.timeElapsed s).

Definition happen (c : copy) (ev : event) (w : World) : World :=
  match ev with
  | Method k => final (invoke c k w)
  | Tick ms => mkWorld (this w) (env w) (localStorage w) (clock w + ms)
  | Counters sc mv mi hi =>
      set_this (Game.set_state (set_counters sc mv mi hi (Game.state (this w))) (this w)) w
  end.

(** A thrown exception ends the call that threw; the object lives on. *)
Definition history (c : copy) (evs : list event) (w : World) : World :=
  fold_left (fun w ev => happen c ev w) evs w.

End Lifecycle.

(* ===================================================================== *)
(** ** An engine to run the code on concrete inputs *)
(* ===================================================================== *)

(** Arithmetic without rounding on the finite values and IEEE-754's rules on
    NaN and the infinities (zero is unsigned here); decimal [parseInt] and
    [parseFloat]; numbers printed in decimal.  It serves the examples: no
    theorem below depends on it. *)
Module ExactEngine.

Definition sign_of (a : jsnum) : Z :=
  match a with
  | NaN => 0
  | NegInf => -1
  | PosInf => 1
  | Fin q => Z.sgn (Qnum q)
  end.

Definition inf_of_sign (s : Z) : jsnum :=
  if (s =? 0)%Z then NaN else if (s <? 0)%Z then NegInf else PosInf.

Definition mul (a b : jsnum) : jsnum :=
  match a, b with
  | NaN, _ | _, NaN => NaN
  | Fin x, Fin y => Fin (Qred (x * y))
  | _, _ => inf_of_sign (sign_of a * sign_of b)
  end.

Definition div (a b : jsnum) : jsnum :=
  match a, b with
  | NaN, _ | _, NaN => NaN
  | Fin x, Fin y => if Qeq_bool y 0 then inf_of_sign (sign_of a) else Fin (Qred (x / y))
  | Fin _, _ => Fin 0
  | _, Fin _ => inf_of_sign (sign_of a * (if (sign_of b =? 0)%Z then 1 else sign_of b))
  | _, _ => NaN
  end.

Definition sub (a b : jsnum) : jsnum :=
  match a, b with
  | NaN, _ | _, NaN => NaN
  | Fin x, Fin y => Fin (Qred (x - y))
  | Fin _, NegInf => PosInf
  | Fin _, PosInf => NegInf
  | PosInf, PosInf | NegInf, NegInf => NaN
  | PosInf, _ => PosInf
  | NegInf, _ => NegInf
  end.

Definition rem (a b : jsnum) : jsnum :=
  match a, b with
  | Fin x, Fin y =>
      if Qeq_bool y 0 then NaN
      else
        let quotient := (x / y)%Q in
        let truncated := (Z.quot (Qnum quotient) (Z.pos (Qden quotient))) in
        Fin (Qred (x - y * inject_Z truncated))
  | Fin x, (NegInf | PosInf) => Fin x
  | _, _ => NaN
  end.

Definition digit_of (c : ascii) : option Z :=
  let n := nat_of_ascii c in
  if (48 <=? n)%nat && (n <=? 57)%nat then Some (Z.of_nat (n - 48)) else None.

(** The digits at the head of [s], as a number, how many there were, and the
    rest of [s]. *)
Fixpoint digits (s : string) (acc : Z) (count : nat) : Z * nat * string :=
  match s with
  | EmptyString => (acc, count, s)
  | String c rest =>
      match digit_of c with
      | Some d => digits rest (10 * acc + d) (S count)
      | None => (acc, count, s)
      end
  end.

Fixpoint skip_spaces (s : string) : string :=
  match s with
  | String c rest => if Ascii.eqb c " "%char then skip_spaces rest else s
  | EmptyString => s
  end.

Definition signed (s : string) : Z * string :=
  match s with
  | String c rest =>
      if Ascii.eqb c "-"%char then (-1, rest)
      else if Ascii.eqb c "+"%char then (1, rest)
      else (1, s)
  | EmptyString => (1, s)
  end.

Definition parse_int (s : string) : jsnum :=
  let '(sg, body) := signed (skip_spaces s) in
  let '(value, count, _) := digits body 0 0 in
  if (count =? 0)%nat then NaN else num_of_Z (sg * value).

Definition parse_float (s : string) : jsnum :=
  let '(sg, body) := signed (skip_spaces s) in
  let '(whole, count, rest) := digits body 0 0 in
  match rest with
  | String c frac =>
      if Ascii.eqb c "."%char then
        let '(part, places, _) := digits frac 0 0 in
        if (count + places =? 0)%nat then NaN
        else Fin (Qred (inject_Z sg * (inject_Z whole + inject_Z part / inject_Z (10 ^ Z.of_nat places))))
      else if (count =? 0)%nat then NaN else num_of_Z (sg * whole)
  | EmptyString => if (count =? 0)%nat then NaN else num_of_Z (sg * whole)
  end.

(** The decimal digits of a fraction [numerator / denominator] below one. *)
Fixpoint fraction_digits (places : nat) (numerator denominator : Z) : string :=
  match places with
  | O => ""
  | S k =>
      if (numerator =? 0)%Z then ""
      else pretty (10 * numerator / denominator)%Z
             +:+ fraction_digits k ((10 * numerator) mod denominator) denominator
  end.

Definition to_string (a : jsnum) : string :=
  match a with
  | NaN => "NaN"
  | NegInf => "-Infinity"
  | PosInf => "Infinity"
  | Fin q =>
      let n := Qnum q in
      let d := Z.pos (Qden q) in
      let whole := Z.quot n d in
      let remainder := Z.abs (Z.rem n d) in
      if (remainder =? 0)%Z then pretty whole
      else (if (n <? 0)%Z && (whole =? 0)%Z then "-" else "")
             +:+ pretty whole +:+ "." +:+ fraction_digits 17 remainder d
  end.

(** [toLowerCase] on the capitals of ASCII, Latin-1 (U+00C0 to U+00DE) and
    basic Cyrillic (U+0400 to U+042F), read off the UTF-8 bytes; every other
    character is kept as it is. *)
Fixpoint to_lower (s : string) : string :=
  match s with
  | EmptyString => EmptyString
  | String c rest =>
      let n := nat_of_ascii c in
      if (65 <=? n)%nat && (n <=? 90)%nat
      then String (ascii_of_nat (n + 32)) (to_lower rest)
      else
        match rest with
        | String d rest' =>
            let m := nat_of_ascii d in
            if (n =? 195)%nat && (128 <=? m)%nat && (m <=? 158)%nat && negb (m =? 151)%nat
            then String c (String (ascii_of_nat (m + 32)) (to_lower rest'))
            else if (n =? 208)%nat && (128 <=? m)%nat && (m <=? 143)%nat
            then String (ascii_of_nat 209) (String (ascii_of_nat (m + 16)) (to_lower rest'))
            else if (n =? 208)%nat && (144 <=? m)%nat && (m <=? 159)%nat
            then String c (String (ascii_of_nat (m + 32)) (to_lower rest'))
            else if (n =? 208)%nat && (160 <=? m)%nat && (m <=? 175)%nat
            then String (ascii_of_nat 209) (String (ascii_of_nat (m - 32)) (to_lower rest'))
            else String c (to_lower rest)
        | EmptyString => String c EmptyString
        end
  end.

Definition engine : Engine := {|
  num_mul := mul;
  num_div := div;
  num_sub := sub;
  num_mod := rem;
  parseInt := parse_int;
  parseFloat := parse_float;
  Number_toString := to_string;
  toISOString := fun ms => "T+" +:+ pretty ms;
  toLowerCase := to_lower
|}.

End ExactEngine.

(* ===================================================================== *)
(** ** Vocabulary of the statements *)
(* ===================================================================== *)

(** The six grades, lowest first, and the place of a grade in that order. *)
Definition grades : list string := ["F"; "D"; "C"; "B"; "A"; "S"].

Definition grade_rank (g : string) : nat :=
  if String.eqb g "S" then 5
  else if String.eqb g "A" then 4
  else if String.eqb g "B" then 3
  else if String.eqb g "C" then 2
  else if String.eqb g "D" then 1
  else 0.

(** [0 <= p <= 100]. *)
Definition within_0_100 (p : jsnum) : bool :=
  num_leb (Fin 0) p && num_leb p (Fin 100).

(** The five values the comment at game-interface.js:43 lists. *)
Definition statuses : list string := ["idle"; "playing"; "paused"; "completed"; "failed"].

(** The value a call returned, if it returned. *)
Definition returned {A} (r : Run A) : option A :=
  match result r with Returned a => Some a | Thrown _ => None end.

(** How many times the host's [sendData] was called. *)
Definition is_send (e : effect) : bool :=
  match e with Now (Act (SendData _)) => true | _ => false end.

Definition sends (es : list effect) : nat := length (List.filter is_send es).

(** The calls of [localStorage.setItem]. *)
Definition is_write (e : effect) : bool :=
  match e with Now (Act (StorageSet _ _)) => true | _ => false end.

Definition writes (es : list effect) : nat := length (List.filter is_write es).

(** A method keeps a relation between the world it starts in and the world
    it leaves, whether it returns or throws. *)
Definition keeps {A} (R : World -> World -> Prop) (m : M A) : Prop :=
  forall w, R w (final (m w)).

Definition same_status (w w' : World) : Prop :=
  State.status (Game.state (this w')) = State.status (Game.state (this w)).

Definition same_milestones (w w' : World) : Prop :=
  Game.milestones (this w') = Game.milestones (this w).

(** Every effect a method emits satisfies [P]. *)
Definition emits {A} (P : effect -> Prop) (m : M A) : Prop :=
  forall w, Forall P (emitted (m w)).

(** A method calls the host's [sendData] at most [n] times. *)
Definition sends_at_most {A} (n : nat) (m : M A) : Prop :=
  forall w, (sends (emitted (m w)) <= n)%nat.

(** A run written out: what a method returns or throws in a world, the world
    it leaves and the effects it emits. *)
Definition runs_to {A} (m : M A) (w : World) (o : outcome A) (w' : World)
    (es : list effect) : Prop :=
  m w = mkRun o w' es.

(** The key of the record the [catch] of [sendResult] stores:
    [`game_result_error_${Date.now()}`]. *)
Definition error_key `{Engine} (w : World) : string :=
  "game_result_error_" +:+ Number_toString (num_of_Z (clock w)).

(** The key of the fallback: [`game_result_${this.config.sessionId}`]. *)
Definition session_key (w : World) : string :=
  "game_result_" +:+ to_String (Config.sessionId (Game.config (this w))).

(** *** Asynchrony (claim C5) *)





(** The asynchronous effects among those emitted. *)
Definition is_async (e : effect) : bool :=
  match e with
  | Now (Act (PostMessage _)) => true
  | Now (Act _) => false
  | Now (SetTimeout _ _) => true
  | Fetch _ _ _ _ _ => true
  end.





(** *** Messages to the parent window *)

Definition is_post (e : effect) : bool :=
  match e with Now (Act (PostMessage _)) => true | _ => false end.

(** Started in a world that satisfies [I], a method emits only effects that
    satisfy [P] and leaves a world that satisfies [I]. *)
Definition guards {A} (I : World -> Prop) (P : effect -> Prop) (m : M A) : Prop :=
  forall w, I w -> Forall P (emitted (m w)) /\ I (final (m w)).

Definition standalone_page (w : World) : Prop := Env.embedded (env w) = false.

(** *** The session's status (claim C6) *)

(** The status a call leaves, from the status it finds. *)
Definition status_after (k : call) (old : string) : string :=
  match k with
  | call_start => "playing"
  | call_end success => if success then "completed" else "failed"
  | call_handleExit confirmed =>
      if String.eqb old "playing" && confirmed then "failed" else old
  | _ => old
  end.

Definition status_of (w : World) : string := State.status (Game.state (this w)).

(** *** Milestones (claim C7) *)

(** The milestones the calls of [recordMilestone] in a history returned, in
    the order of the calls. *)
Fixpoint recorded `{Engine} `{Hooks} (c : copy) (evs : list event) (w : World)
    : list Milestone.t :=
  match evs with
  | [] => []
  | ev :: rest =>
      match ev with
      | Method (call_recordMilestone n md) =>
          match returned (recordMilestone n md w) with
          | Some m => [m]
          | None => []
          end
      | _ => []
      end ++ recorded c rest (happen c ev w)
  end.

Definition is_recordMilestone (ev : event) : bool :=
  match ev with Method (call_recordMilestone _ _) => true | _ => false end.

Definition summary_of (ms : list Milestone.t) : option Summary.t :=
  match ms with
  | [] => None
  | _ :: _ => Some (Summary.mk (length ms) ms (head ms) (last ms))
  end.

(** *** The configuration (claim C3) *)

(** A configuration overridden by one parameter when it is present. *)
Definition override (urlParams : list (string * string)) (key : string)
    (f : string -> Config.t -> Config.t) (c : Config.t) : Config.t :=
  match get urlParams key with
  | Some v => f v c
  | None => c
  end.

(** The language the specification describes, before it is normalised. *)
Definition described_language (urlParams : list (string * string))
    (user : option User.t) : string :=
  match str_or (get urlParams "lang") (get urlParams "language") with
  | Some l => l
  | None =>
      match user with
      | Some u => to_String (str_or (User.language_code u) (Some "en"))
      | None => "en"
      end
  end.

(** A time limit that is neither [null] nor falsy, replaced by
    [floor(timeLimit * timeModifier)]. *)
Definition scaled `{Engine} (c : Config.t) : Config.t :=
  match Config.timeLimit c with
  | Some limit =>
      if num_truthy limit
      then Config.set_timeLimit
             (Some (Math_floor (num_mul limit (Config.timeModifier c)))) c
      else c
  | None => c
  end.

(** The configuration as the specification describes it, written from its
    words: the defaults, overridden pointwise by each parameter that is
    present, the language chosen and normalised, a truthy time limit then
    scaled. *)
Definition described_config `{Engine} (defaults : Config.t)
    (urlParams : list (string * string)) (user : option User.t) : Config.t :=
  let c := override urlParams "difficulty"
             (fun v => Config.set_difficulty (parseInt v)) defaults in
  let c := override urlParams "timeLimit"
             (fun v => Config.set_timeLimit (Some (parseInt v))) c in
  let c := override urlParams "timeModifier"
             (fun v => Config.set_timeModifier (parseFloat v)) c in
  let c := override urlParams "hints"
             (fun v => Config.set_hintsCount (parseInt v)) c in
  let c := override urlParams "sessionId"
             (fun v => Config.set_sessionId (Some v)) c in
  let c := override urlParams "scoreModifier"
             (fun v => Config.set_scoreModifier (parseFloat v)) c in
  let c := Config.set_language
             (Some (toLowerCase (before_dash (described_language urlParams user)))) c in
  scaled c.

(** The same with the user's id, which the code also stores. *)
Definition described_config_with_user `{Engine} (defaults : Config.t)
    (urlParams : list (string * string)) (user : option User.t) : Config.t :=
  Config.set_userId
    (match user with Some u => Some (User.id u) | None => Config.userId defaults end)
    (described_config defaults urlParams user).

(** The query strings on which the language the code selects is [null]: a
    language parameter is present and [get('lang') || get('language')] is
    [null]. *)
Definition language_is_null (urlParams : list (string * string)) : bool :=
  (has urlParams "lang" || has urlParams "language")
  && match str_or (get urlParams "lang") (get urlParams "language") with
     | Some _ => false
     | None => true
     end.

(** *** Beyond the claims *)

(** The counters the game's own code keeps in [this.state]. *)
Definition counters (w : World) : jsnum * jsnum * jsnum * jsnum :=
  let st := Game.state (this w) in
  (State.score st, State.moves st, State.mistakes st, State.hintsUsed st).

(** The elapsed time [end] computes from the two time stamps. *)
Definition elapsed `{Engine} (endTime : jsnum) (startTime : option jsnum) : jsnum :=
  Math_floor (num_div (num_sub endTime (to_Number startTime)) (Fin 1000)).

(** What no parameter of the query string reaches: the settings without a
    parameter, the session state, the milestones and local storage. *)
Definition beyond_the_query (w w' : World) : Prop :=
  let c := Game.config (this w) in
  let c' := Game.config (this w') in
  Config.gameId c' = Config.gameId c /\
  Config.gameName c' = Config.gameName c /\
  Config.version c' = Config.version c /\
  Config.hintsEnabled c' = Config.hintsEnabled c /\
  Config.soundEnabled c' = Config.soundEnabled c /\
  Config.hapticsEnabled c' = Config.hapticsEnabled c /\
  Config.penaltyEnabled c' = Config.penaltyEnabled c /\
  Config.custom c' = Config.custom c /\
  Game.state (this w') = Game.state (this w) /\
  Game.milestones (this w') = Game.milestones (this w) /\
  localStorage w' = localStorage w.

(** The language and the translations are what they were. *)
Definition same_texts (w w' : World) : Prop :=
  Config.language (Game.config (this w')) = Config.language (Game.config (this w)) /\
  Game.translations (this w') = Game.translations (this w).

(** The events that neither parse the query string again nor replace the
    translations. *)
Definition keeps_texts (ev : event) : bool :=
  match ev with
  | Method call_parseInputParams => false
  | Method (call_setTranslations _ _) => false
  | _ => true
  end.

(** The object is what it was. *)
Definition same_this (w w' : World) : Prop := this w' = this w.

(** The message [sendEvent] builds. *)
Definition event_message (w : World) (eventName : string) (eventData : json) : json :=
  JObj [("type", JStr "GAME_EVENT");
        ("event", JStr eventName);
        ("gameId", jstr_undef (Config.gameId (Game.config (this w))));
        ("sessionId", jstr_null (Config.sessionId (Game.config (this w))));
        ("timestamp", JNum (num_of_Z (clock w)));
        ("data", eventData)].

(* ===================================================================== *)
(** ** Concrete pages, games and results *)
(* ===================================================================== *)

Module Sample.

(** The bridge of telegram-web-app-mock.js with its first mock user: its
    [sendData] shows the payload and returns. *)
Definition mock : Bridge.t :=
  Bridge.mk (Some (User.mk 123456789 (Some "en"))) "" (Some (fun _ => None))
    (Some "mock_query_0").

(** A bridge object with no [sendData] and no user. *)
Definition bare : Bridge.t := Bridge.mk None "" None None.

(** A host whose [sendData] refuses what is longer than 4096 bytes. *)
Definition strict : Bridge.t :=
  Bridge.mk (Some (User.mk 123456789 (Some "en"))) ""
    (Some (fun payload =>
             if (4096 <? String.length payload)%nat
             then Some (mkError "Error" "WebAppDataInvalid")
             else None))
    (Some "mock_query_0").

Definition hanoi : GameConfig.t :=
  GameConfig.mk (Some "hanoi") (Some "Tower of Hanoi") JUndefined.

(** A game whose name alone is longer than the limit. *)
Definition verbose : GameConfig.t :=
  GameConfig.mk (Some "hanoi") (Some (repeat_char "a" 5000)) JUndefined.

(** A game that overrides [getOptimalScore]. *)
Definition scored : Hooks := {|
  getOptimalScore := fun _ => Some (Fin 10);
  isOptimalSolution := fun _ => JBool false;
  checkAchievements := fun _ => JArr [];
  getGameSpecificData := fun _ => JObj [];
  captureGameState := fun _ => JObj []
|}.

(** The world a constructor call leaves. *)
Definition built (gc : GameConfig.t) (search : list (string * string)) (tg : Bridge.t)
    : World :=
  final (@constructor ExactEngine.engine gc (Env.mk search tg false) ∅ 0).

(** The result [generateResult(true)] builds in a world. *)
Definition outcome_in (h : Hooks) (w : World) : option Result.t :=
  returned (@generateResult ExactEngine.engine h true w).

Definition with_session : list (string * string) := [("sessionId", "s1")].


(** A world in which the game's code has stored NaN as the score. *)
Definition nan_score : World :=
  @happen ExactEngine.engine BaseHooks current_js
    (Counters NaN (Fin 0) (Fin 0) (Fin 0)) (built hanoi with_session mock).

(** A page whose query string is [?difficulty=3&timeLimit=60&timeModifier=1.5&lang=ru-RU]. *)
Definition query : list (string * string) :=
  [("difficulty", "3"); ("timeLimit", "60"); ("timeModifier", "1.5"); ("lang", "ru-RU")].

(** The result [end(true)] would build in a world. *)
Definition empty : Result.t :=
  Result.mk None None None None "" false "idle" (Fin 0) (Fin 0) (Fin 0) (Fin 0) (Fin 0)
    (Fin 0) None None (Fin 0) "F" (Fin 1) None (Fin 1) (Fin 1) true
    JUndefined JUndefined None JUndefined "".

Definition result_in (w : World) : Result.t := default empty (outcome_in BaseHooks w).

(** [sendResult] of a copy on the result of a world, run by the exact engine. *)
Definition send (c : copy) (w : World) : Run unit :=
  @sendResult ExactEngine.engine c (result_in w) w.

(** The compact serialisation of the result of a world. *)
Definition compact (w : World) : option string :=
  @JSON_stringify ExactEngine.engine (compactResult (result_in w)).

(** The same, or the empty string. *)
Definition compact_text (w : World) : string := default "" (compact w).

(** Worlds after construction: a game with a long name, with and without a
    session; a page with no [sendData]; the mock host. *)
Definition wordy : World := built verbose with_session mock.
Definition wordy_anonymous : World := built verbose [] mock.
Definition standalone : World := built hanoi with_session bare.
Definition standalone_anonymous : World := built hanoi [] bare.
Definition hosted : World := built hanoi with_session mock.

(** The mock host's game after [start()]. *)
Definition playing : World :=
  @happen ExactEngine.engine BaseHooks current_js (Method call_start) hosted.


(** A game whose specific data holds a BigInt. *)
Definition big : Hooks := {|
  getOptimalScore := fun _ => None;
  isOptimalSolution := fun _ => JBool false;
  checkAchievements := fun _ => JArr [];
  getGameSpecificData := fun _ => JObj [("seed", JBigInt 7)];
  captureGameState := fun _ => JNull
|}.

(** The result of that game on the mock host. *)
Definition big_result : Result.t := default empty (outcome_in big hosted).


(** Translations for two languages. *)
Definition texts : gmap string (gmap string string) :=
  {[ "en" := {[ "title" := "Tower of Hanoi" ]};
     "ru" := {[ "title" := "Ханойская башня" ]} ]}.

(** A string repeated. *)
Fixpoint repeat_string (s : string) (n : nat) : string :=
  match n with
  | O => ""
  | S k => s +:+ repeat_string s k
  end.

(** A game whose name is 2100 Cyrillic letters: 2100 code units, 4200
    bytes. *)
Definition cyrillic : GameConfig.t :=
  GameConfig.mk (Some "hanoi") (Some (repeat_string "я" 2100)) JUndefined.

Definition wide : World := built cyrillic with_session mock.


(** A history that neither parses the query string again nor replaces the
    translations. *)
Definition played : list event :=
  [Method call_start; Tick 1500; Method (call_recordMilestone "first move" JNull);
   Counters (Fin 7) (Fin 7) (Fin 0) (Fin 0); Method (call_end true)].

End Sample.

(* ===================================================================== *)
(** ** Proof automation *)
(* ===================================================================== *)

Create HintDb frame.

(** One step through the structure of a method for a property that
    distributes over sequencing and [try]/[catch]: close the goal from the
    hints, split on what the method branches on, or descend. *)
Ltac descend bind_rule try_rule :=
  first
    [ solve [ eauto with frame typeclass_instances ]
    | match goal with
      | |- ?P (if ?c then _ else _) => destruct c
      | |- ?P (match ?x with _ => _ end) => destruct x
      | |- ?P (let _ := _ in _) => cbv zeta
      end
    | eapply bind_rule; [ try exact _ .. | intros ? ]
    | eapply try_rule; [ try exact _ .. | intros ? ] ].

Ltac through bind_rule try_rule := repeat (descend bind_rule try_rule).

(** Symbolic execution of a method towards [runs_to]: rewrite with the
    equations at hand, then follow the first statement, returning or
    throwing. *)
Ltac settle :=
  cbn [env this set_localStorage set_this];
  repeat match goal with
         | H : ?l = _ |- context [?l] => rewrite H
         end;
  cbn [negb andb orb message TypeError].

Ltac run bind_ret bind_throw try_ret try_throw :=
  cbv beta; settle;
  lazymatch goal with
  | |- runs_to (_ ≫= _) _ _ _ _ =>
      first [ eapply bind_ret; [ run bind_ret bind_throw try_ret try_throw
                               | run bind_ret bind_throw try_ret try_throw ]
            | eapply bind_throw; run bind_ret bind_throw try_ret try_throw ]
  | |- runs_to (try_catch _ _) _ _ _ _ =>
      first [ eapply try_ret; run bind_ret bind_throw try_ret try_throw
            | eapply try_throw; [ run bind_ret bind_throw try_ret try_throw
                                | run bind_ret bind_throw try_ret try_throw ] ]
  | |- runs_to (if ?c then _ else _) _ _ _ _ => fail "undecided" c
  | |- runs_to (match ?x with _ => _ end) _ _ _ _ => fail "undecided" x
  | |- runs_to _ _ _ _ _ => reflexivity
  end.

(** Establish [m w = mkRun o w' es] by running [m]. *)
Ltac execute known bind_ret bind_throw try_ret try_throw :=
  eapply known;
    [ run bind_ret bind_throw try_ret try_throw | reflexivity | reflexivity ].

(** Rewrite with the instance of a two-part stepping rule for one parameter
    of the query string. *)
Ltac peel rule params key F :=
  let Hs := fresh "Hs" in
  pose proof (fun B => rule B params key F) as Hs;
  cbv beta zeta in Hs;
  rewrite (proj1 (Hs _ _ _ _)), (proj2 (Hs _ _ _ _)); clear Hs; cbv beta.

(* ===================================================================== *)
(** * Properties *)
(* ===================================================================== *)

(** ** Running a computation *)

Lemma run_bind {A B} (m : M A) (f : A -> M B) (w : World) :
  (m ≫= f) w =
  match result (m w) with
  | Returned a =>
      mkRun (result (f a (final (m w)))) (final (f a (final (m w))))
            (emitted (m w) ++ emitted (f a (final (m w))))
  | Thrown e => mkRun (Thrown e) (final (m w)) (emitted (m w))
  end.
Proof. reflexivity. Qed.

Lemma run_try {A} (body : M A) (handler : JSError -> M A) (w : World) :
  try_catch body handler w =
  match result (body w) with
  | Returned a => body w
  | Thrown e =>
      mkRun (result (handler e (final (body w)))) (final (handler e (final (body w))))
            (emitted (body w) ++ emitted (handler e (final (body w))))
  end.
Proof. reflexivity. Qed.

Lemma sends_app (xs ys : list effect) : sends (xs ++ ys) = (sends xs + sends ys)%nat.
Proof. unfold sends. rewrite List.filter_app, length_app. reflexivity. Qed.

(** ** Relations a method keeps *)

Section Frame.
Context (R : World -> World -> Prop) {HR : PreOrder R}.

Lemma keeps_ret {A} (a : A) : keeps R (mret a).
Proof. intros w. reflexivity. Qed.

Lemma keeps_throw {A} (e : JSError) : keeps R (mthrow (A:=A) e).
Proof. intros w. reflexivity. Qed.

Lemma keeps_bind {A B} (m : M A) (f : A -> M B) :
  keeps R m -> (forall a, keeps R (f a)) -> keeps R (m ≫= f).
Proof.
  intros Hm Hf w. rewrite run_bind.
  destruct (result (m w)) as [a|e]; simpl; [|apply Hm].
  transitivity (final (m w)); [apply Hm|apply Hf].
Qed.

Lemma keeps_try {A} (body : M A) (handler : JSError -> M A) :
  keeps R body -> (forall e, keeps R (handler e)) -> keeps R (try_catch body handler).
Proof.
  intros Hb Hh w. rewrite run_try.
  destruct (result (body w)) as [a|e]; simpl; [apply Hb|].
  transitivity (final (body w)); [apply Hb|apply Hh].
Qed.

Lemma keeps_get_world : keeps R get_world.
Proof. intros w. reflexivity. Qed.

Lemma keeps_get_this : keeps R get_this.
Proof. intros w. reflexivity. Qed.

Lemma keeps_emit (e : effect) : keeps R (emit e).
Proof. intros w. reflexivity. Qed.

Lemma keeps_perform (a : action) : keeps R (perform a).
Proof. intros w. reflexivity. Qed.

Lemma keeps_console_log (msg : string) : keeps R (console_log msg).
Proof. intros w. reflexivity. Qed.

Lemma keeps_console_warn (msg : string) : keeps R (console_warn msg).
Proof. intros w. reflexivity. Qed.

Lemma keeps_console_error (msg : string) : keeps R (console_error msg).
Proof. intros w. reflexivity. Qed.

Lemma keeps_alert (msg : string) : keeps R (alert msg).
Proof. intros w. reflexivity. Qed.

Lemma keeps_Date_now : keeps R Date_now.
Proof. intros w. reflexivity. Qed.

Lemma keeps_stringify `{Engine} (props : list (string * json)) : keeps R (stringify props).
Proof. unfold stringify. destruct (JSON_stringify props); intros w; reflexivity. Qed.

Lemma keeps_assign_const (name value : string) : keeps R (assign_const name value).
Proof. intros w. reflexivity. Qed.

Lemma keeps_call_sendData (host : string -> option JSError) (payload : string) :
  keeps R (call_sendData host payload).
Proof. unfold call_sendData. destruct (host payload); intros w; reflexivity. Qed.

Lemma keeps_tg_sendData (payload : string) : keeps R (tg_sendData payload).
Proof.
  intros w. unfold tg_sendData. rewrite run_bind. simpl.
  destruct (Bridge.sendData (Env.tg (env w))) as [host|]; [|reflexivity].
  apply keeps_call_sendData.
Qed.

End Frame.

#[local] Hint Resolve keeps_ret keeps_throw keeps_get_world keeps_get_this keeps_emit
  keeps_perform keeps_console_log keeps_console_warn keeps_console_error keeps_alert
  keeps_Date_now keeps_stringify keeps_assign_const keeps_call_sendData
  keeps_tg_sendData : frame.

(** ** Effects a method emits *)

Section Emits.
Context (P : effect -> Prop).

Lemma emits_ret {A} (a : A) : emits P (mret a).
Proof. intros w. constructor. Qed.

Lemma emits_throw {A} (e : JSError) : emits P (mthrow (A:=A) e).
Proof. intros w. constructor. Qed.



Lemma emits_get_world : emits P get_world.
Proof. intros w. constructor. Qed.

Lemma emits_Date_now : emits P Date_now.
Proof. intros w. constructor. Qed.

Lemma emits_stringify `{Engine} (props : list (string * json)) : emits P (stringify props).
Proof. unfold stringify. destruct (JSON_stringify props); intros w; constructor. Qed.

Lemma emits_assign_const (name value : string) : emits P (assign_const name value).
Proof. intros w. constructor. Qed.

Lemma emits_emit (e : effect) : P e -> emits P (emit e).
Proof. intros He w. repeat constructor. exact He. Qed.

Lemma emits_perform (a : action) : P (Now (Act a)) -> emits P (perform a).
Proof. apply emits_emit. Qed.

Lemma emits_setItem (key value : string) :
  P (Now (Act (StorageSet key value))) -> emits P (setItem key value).
Proof. intros He w. repeat constructor. exact He. Qed.

Lemma emits_call_sendData (host : string -> option JSError) (payload : string) :
  P (Now (Act (SendData payload))) -> emits P (call_sendData host payload).
Proof.
  intros He w. unfold call_sendData. rewrite run_bind. simpl.
  destruct (host payload); repeat constructor; exact He.
Qed.

Lemma emits_tg_sendData (payload : string) :
  P (Now (Act (SendData payload))) -> emits P (tg_sendData payload).
Proof.
  intros He w. unfold tg_sendData. rewrite run_bind. simpl.
  destruct (Bridge.sendData (Env.tg (env w))) as [host|]; [|constructor].
  apply emits_call_sendData. exact He.
Qed.

End Emits.

(** ** Ratings and performance *)

Lemma num_geb_mono (c p1 p2 : Q) :
  (p1 <= p2)%Q -> num_geb (Fin p1) (Fin c) = true -> num_geb (Fin p2) (Fin c) = true.
Proof.
  unfold num_geb, num_leb. rewrite !Qle_bool_iff. intros Hle Hc.
  apply Qle_trans with p1; assumption.
Qed.

Lemma getRating_in_grades (p : jsnum) : In (getRating p) grades.
Proof.
  unfold getRating, grades.
  repeat match goal with |- context [if ?b then _ else _] => destruct b end;
    simpl; tauto.
Qed.

(** C10.  [getRating] returns one of the six grades on every input, and on
    real-valued inputs it is monotone: if [p1 <= p2], the grade of [p1] is at
    most the grade of [p2] in the order F < D < C < B < A < S. *)
Theorem getRating_total_and_monotone (p1 p2 : Q) :
  (p1 <= p2)%Q ->
  In (getRating (Fin p1)) grades /\
  In (getRating (Fin p2)) grades /\
  (grade_rank (getRating (Fin p1)) <= grade_rank (getRating (Fin p2)))%nat.
Proof.
  intros Hle.
  split; [apply getRating_in_grades|]. split; [apply getRating_in_grades|].
  pose proof (num_geb_mono 95 _ _ Hle) as H95.
  pose proof (num_geb_mono 85 _ _ Hle) as H85.
  pose proof (num_geb_mono 75 _ _ Hle) as H75.
  pose proof (num_geb_mono 60 _ _ Hle) as H60.
  pose proof (num_geb_mono 40 _ _ Hle) as H40.
  unfold getRating.
  destruct (num_geb (Fin p1) (Fin 95)); [rewrite H95 by reflexivity; simpl; lia|clear H95].
  destruct (num_geb (Fin p1) (Fin 85)); [rewrite H85 by reflexivity|clear H85];
  destruct (num_geb (Fin p1) (Fin 75)); try (rewrite H75 by reflexivity); clear H75;
  destruct (num_geb (Fin p1) (Fin 60)); try (rewrite H60 by reflexivity); clear H60;
  destruct (num_geb (Fin p1) (Fin 40)); try (rewrite H40 by reflexivity); clear H40;
  repeat match goal with |- context [if ?b then _ else _] => destruct b end;
  vm_compute; lia.
Qed.

Lemma getRating_total_and_monotone_witness :
  (59 <= 60)%Q /\
  In (getRating (Fin 59)) grades /\
  In (getRating (Fin 60)) grades /\
  (grade_rank (getRating (Fin 59)) <= grade_rank (getRating (Fin 60)))%nat.
Proof.
  split; [ unfold Qle; simpl; lia
         | apply (getRating_total_and_monotone 59 60); unfold Qle; simpl; lia ].
Defined.

Lemma Qle_bool_false (a b : Q) : Qle_bool a b = false -> (b < a)%Q.
Proof.
  intros Hf. apply Qnot_le_lt. intros Hle.
  apply Qle_bool_iff in Hle. congruence.
Qed.

Lemma getRating_negative (q : Q) : Qle_bool 0 q = false -> getRating (Fin q) = "F".
Proof.
  intros Hneg. apply Qle_bool_false in Hneg.
  assert (Hlow : forall c : Q, (0 < c)%Q -> Qle_bool c q = false).
  { intros c Hc. destruct (Qle_bool c q) eqn:Hcq; [|reflexivity].
    apply Qle_bool_iff in Hcq.
    exfalso. apply (Qlt_irrefl 0).
    apply Qlt_trans with c; [exact Hc|]. apply Qle_lt_trans with q; assumption. }
  unfold getRating, num_geb, num_leb.
  rewrite !Hlow by reflexivity. reflexivity.
Qed.

Lemma clamp_keeps_rating (x : jsnum) :
  getRating (Math_min (Fin 100) (Math_max (Fin 0) (Math_min (Fin 100) x)))
  = getRating (Math_min (Fin 100) x).
Proof.
  destruct x as [| |q|]; try reflexivity.
  unfold Math_min at 2 3. unfold num_leb.
  destruct (Qle_bool 100 q) eqn:Htop; [reflexivity|].
  unfold Math_max, num_leb.
  destruct (Qle_bool 0 q) eqn:Hlow.
  - unfold Math_min, num_leb. rewrite Htop. reflexivity.
  - rewrite (getRating_negative q Hlow). reflexivity.
Qed.

Lemma clamp_in_range (x : jsnum) :
  is_NaN x = false ->
  within_0_100 (Math_min (Fin 100) (Math_max (Fin 0) (Math_min (Fin 100) x))) = true.
Proof.
  destruct x as [| |q|]; try discriminate; try reflexivity. intros _.
  unfold Math_min at 2. unfold num_leb.
  destruct (Qle_bool 100 q) eqn:Htop; [reflexivity|].
  unfold Math_max, num_leb.
  destruct (Qle_bool 0 q) eqn:Hlow; [|reflexivity].
  unfold Math_min, num_leb. rewrite Htop.
  unfold within_0_100, num_leb. rewrite Hlow. simpl.
  apply Qle_bool_iff. apply Qlt_le_weak. apply Qle_bool_false. exact Htop.
Qed.

Lemma raw_performance_shape `{Engine} `{Hooks} (g : Game.t) :
  exists x, raw_performance g = Math_min (Fin 100) x /\ is_NaN (raw_performance g) = is_NaN x.
Proof.
  unfold raw_performance.
  destruct (getOptimalScore g) as [o|]; [destruct (num_truthy o)|].
  - eexists. split; [reflexivity|].
    destruct (num_mul _ _) as [| |q|]; try reflexivity.
    unfold Math_min, num_leb. destruct (Qle_bool 100 q); reflexivity.
  - exists (Fin 100). split; reflexivity.
  - exists (Fin 100). split; reflexivity.
Qed.

(** C9 (amended).  Every result [generateResult] returns has its rating equal
    to [getRating] of its performance field; the performance field lies in
    [0, 100] unless the score ratio the method computed is NaN, and then the
    field is NaN. *)
Theorem generateResult_rating_and_range `{Engine} `{Hooks} (success : bool) (w : World) :
  exists res,
    returned (generateResult success w) = Some res /\
    Result.rating res = getRating (Result.performance res) /\
    if is_NaN (raw_performance (this w))
    then Result.performance res = NaN
    else within_0_100 (Result.performance res) = true.
Proof.
  destruct (raw_performance_shape (this w)) as (x & Hshape & Hnan).
  unfold generateResult, getMilestonesSummary, returned.
  rewrite !run_bind. cbn [get_world result final emitted].
  rewrite !run_bind. cbn [get_this result final emitted].
  destruct (length (Game.milestones (this w)) =? 0)%nat;
    cbn [mret M_ret result final emitted];
    (eexists; split; [reflexivity|]);
    cbn [Result.rating Result.performance];
    rewrite Hnan, Hshape;
    (split; [symmetry; apply clamp_keeps_rating|]);
    (destruct (is_NaN x) eqn:Hx; [destruct x; try discriminate; reflexivity | apply clamp_in_range; exact Hx]).
Qed.

(** C9 as stated fails: a game that overrides [getOptimalScore] and stores
    NaN as its score gets a result whose performance field is NaN, which is
    not within [0, 100]. *)
Lemma generateResult_performance_NaN :
  option_map Result.performance (Sample.outcome_in Sample.scored Sample.nan_score) = Some NaN /\
  within_0_100 NaN = false.
Proof. split; vm_compute; reflexivity. Qed.

(** With the base class's [getOptimalScore] the performance is 100 and the
    rating is S, whatever the state. *)
Lemma generateResult_base `{Engine} (success : bool) (w : World) :
  exists res,
    returned (@generateResult _ BaseHooks success w) = Some res /\
    Result.performance res = Fin 100 /\ Result.rating res = "S".
Proof.
  unfold generateResult, getMilestonesSummary, returned.
  rewrite !run_bind. cbn [get_world result final emitted].
  rewrite !run_bind. cbn [get_this result final emitted].
  destruct (length (Game.milestones (this w)) =? 0)%nat;
    cbn [mret M_ret result final emitted];
    (eexists; split; [reflexivity|split; reflexivity]).
Qed.

(** ** The configuration *)

Lemma has_get (params : list (string * string)) (key : string) :
  has params key = match get params key with Some _ => true | None => false end.
Proof.
  induction params as [|[k v] rest IH]; [reflexivity|].
  unfold has in *. simpl. destruct (String.eqb k key); [reflexivity|exact IH].
Qed.

Lemma initTelegram_run (w : World) :
  initTelegram w =
  mkRun (Returned tt) w
    [Now (Act Ready); Now (Act Expand); Now (Act OnBackButton);
     Now (Act (OnEvent "themeChanged"))].
Proof. reflexivity. Qed.

Lemma with_config_twice (c c' : Config.t) (w : World) :
  with_config c' (with_config c w) = with_config c' w.
Proof. reflexivity. Qed.

Lemma run_override {B} (params : list (string * string)) (key : string)
    (F : option string -> Config.t -> Config.t) (k : unit -> M B) (c : Config.t) (w : World) :
  let stmt := if has params key then modify_config (F (get params key)) else mret tt in
  let c' := override params key (fun v => F (Some v)) c in
  result ((stmt ≫= k) (with_config c w)) = result (k tt (with_config c' w)) /\
  final ((stmt ≫= k) (with_config c w)) = final (k tt (with_config c' w)).
Proof.
  cbv zeta. unfold override. rewrite has_get, !run_bind.
  destruct (get params key) as [v|]; split; reflexivity.
Qed.

Lemma run_scaling `{Engine} (w : World) :
  let tail :=
    g ← get_this;
    (if opt_num_truthy (Config.timeLimit (Game.config g))
     then modify_config (Config.set_timeLimit
            (Some (Math_floor (num_mul (to_Number (Config.timeLimit (Game.config g)))
                                       (Config.timeModifier (Game.config g))))))
     else mret tt) ;;
    console_log "📥 Parsed config:" in
  result (tail w) = Returned tt /\
  final (tail w) = with_config (scaled (Game.config (this w))) w.
Proof.
  destruct w as [[cfg st ms tr] e ls t]. destruct cfg.
  cbv zeta. unfold scaled. cbn [this Game.config Config.timeLimit].
  rewrite !run_bind. cbn [get_this result final emitted this Game.config Config.timeLimit].
  destruct timeLimit as [limit|]; [destruct (num_truthy limit) eqn:Hl|];
    cbn [opt_num_truthy]; rewrite ?Hl; split; reflexivity.
Qed.


Section Stepping.
Context {B : Type}.

Lemma result_when (b : bool) (f : Config.t -> Config.t) (k : unit -> M B)
    (c : Config.t) (w : World) :
  result (((if b then modify_config f else mret tt) ≫= k) (with_config c w))
  = result (k tt (with_config (if b then f c else c) w)).
Proof. destruct b; reflexivity. Qed.

Lemma final_when (b : bool) (f : Config.t -> Config.t) (k : unit -> M B)
    (c : Config.t) (w : World) :
  final (((if b then modify_config f else mret tt) ≫= k) (with_config c w))
  = final (k tt (with_config (if b then f c else c) w)).
Proof. destruct b; reflexivity. Qed.

Lemma result_modify (f : Config.t -> Config.t) (k : unit -> M B) (c : Config.t) (w : World) :
  result ((modify_config f ≫= k) (with_config c w)) = result (k tt (with_config (f c) w)).
Proof. reflexivity. Qed.

Lemma final_modify (f : Config.t -> Config.t) (k : unit -> M B) (c : Config.t) (w : World) :
  final ((modify_config f ≫= k) (with_config c w)) = final (k tt (with_config (f c) w)).
Proof. reflexivity. Qed.

Lemma result_get_this (k : Game.t -> M B) (w : World) :
  result ((get_this ≫= k) w) = result (k (this w) w).
Proof. reflexivity. Qed.

Lemma final_get_this (k : Game.t -> M B) (w : World) :
  final ((get_this ≫= k) w) = final (k (this w) w).
Proof. reflexivity. Qed.

Lemma result_ret {A} (a : A) (k : A -> M B) (w : World) :
  result ((mret a ≫= k) w) = result (k a w).
Proof. reflexivity. Qed.

Lemma final_ret {A} (a : A) (k : A -> M B) (w : World) :
  final ((mret a ≫= k) w) = final (k a w).
Proof. reflexivity. Qed.

Lemma run_assoc {A A'} (m : M A) (f : A -> M A') (k : A' -> M B) (w : World) :
  result (((m ≫= f) ≫= k) w) = result ((m ≫= fun a => f a ≫= k) w) /\
  final (((m ≫= f) ≫= k) w) = final ((m ≫= fun a => f a ≫= k) w).
Proof.
  rewrite (run_bind (m ≫= f)), (run_bind m (fun a => f a ≫= k)), (run_bind m f).
  destruct (result (m w)) as [a|e]; cbn [result final emitted]; [|split; reflexivity].
  rewrite (run_bind (f a)).
  destruct (result (f a (final (m w)))); split; reflexivity.
Qed.

Lemma result_assoc {A A'} (m : M A) (f : A -> M A') (k : A' -> M B) (w : World) :
  result (((m ≫= f) ≫= k) w) = result ((m ≫= fun a => f a ≫= k) w).
Proof. apply run_assoc. Qed.

Lemma final_assoc {A A'} (m : M A) (f : A -> M A') (k : A' -> M B) (w : World) :
  final (((m ≫= f) ≫= k) w) = final ((m ≫= fun a => f a ≫= k) w).
Proof. apply run_assoc. Qed.

End Stepping.

Lemma override_keeps {X} (proj : Config.t -> X) (params : list (string * string))
    (key : string) (f : string -> Config.t -> Config.t) (c : Config.t) :
  (forall v c', proj (f v c') = proj c') -> proj (override params key f c) = proj c.
Proof. intros Hf. unfold override. destruct (get params key); [apply Hf|reflexivity]. Qed.

(** C3 (amended).  Unless the language the code selects is [null] (a language
    parameter is present and [get('lang') || get('language')] is [null]), the
    constructor's call of [parseInputParams] returns and leaves the
    configuration the specification describes, with [userId] set to the id
    of the host's user record when there is one. *)
Theorem parseInputParams_config `{Engine} (gc : GameConfig.t) (page : Env.t)
    (storage : gmap string string) (time : Z) :
  language_is_null (Env.search page) = false ->
  result (constructor gc page storage time) = Returned tt /\
  Game.config (this (final (constructor gc page storage time)))
  = described_config_with_user (default_config gc) (Env.search page)
      (Bridge.user (Env.tg page)).
Proof.
  destruct page as [search [user initData sendData query_id] embedded].
  unfold language_is_null, described_config_with_user, described_config,
    described_language, constructor.
  cbn [Env.search Env.tg Bridge.user].
  intros Hnull.
  rewrite run_bind, initTelegram_run. cbn [result final emitted].
  unfold parseInputParams.
  rewrite run_bind.
  cbn [get_world result final emitted env Env.search Env.tg Bridge.user].
  change (mkWorld (initial_game gc) ?e ?s ?t)
    with (with_config (default_config gc) (mkWorld (initial_game gc) e s t)).
  peel (@run_override) search "difficulty" (fun o => Config.set_difficulty (parseInt (to_String o))).
  peel (@run_override) search "timeLimit" (fun o => Config.set_timeLimit (Some (parseInt (to_String o)))).
  peel (@run_override) search "timeModifier" (fun o => Config.set_timeModifier (parseFloat (to_String o))).
  peel (@run_override) search "hints" (fun o => Config.set_hintsCount (parseInt (to_String o))).
  peel (@run_override) search "sessionId" (fun o => Config.set_sessionId o).
  peel (@run_override) search "scoreModifier" (fun o => Config.set_scoreModifier (parseFloat (to_String o))).
  cbn [to_String].
  match goal with
  | |- context [with_config ?c _] =>
      assert (Hlang : Config.language c = Some "en")
        by (rewrite !override_keeps by reflexivity; reflexivity);
      assert (Huser : Config.userId c = Config.userId (default_config gc))
        by (rewrite !override_keeps by reflexivity; reflexivity);
      generalize dependent c
  end.
  intros c6 Hlang Huser.
  rewrite <- Huser. clear Huser.
  match goal with
  | |- context [get_this ≫= ?k] =>
      match k with
      | context [console_log] =>
          match k with
          | context [get_this] => fail 1
          | _ => set (tail := get_this ≫= k)
          end
      end
  end.
  assert (Htail : forall w, result (tail w) = Returned tt /\
            final (tail w) = with_config (scaled (Game.config (this w))) w)
    by (intros w; apply run_scaling).
  clearbody tail.
  pose proof (has_get search "lang") as Hl.
  pose proof (has_get search "language") as Hg.
  destruct (get search "lang") as [[|c1 l1]|], (has search "lang"); try discriminate Hl;
  destruct (get search "language") as [[|c2 l2]|], (has search "language"); try discriminate Hg;
  try discriminate Hnull; clear Hl Hg Hnull.
  all: destruct user as [[uid [[|c3 l3]|]]|].
  all: repeat (progress (rewrite ?result_assoc, ?final_assoc, ?result_modify, ?final_modify,
                           ?result_when, ?final_when, ?result_ret, ?final_ret,
                           ?result_get_this, ?final_get_this;
                         cbv beta;
                         cbn [this with_config set_this Game.config Game.set_config
                              Config.language Config.set_language Config.set_userId
                              str_or opt_str_truthy str_truthy orb negb andb
                              User.language_code User.id];
                         rewrite ?Hlang)).
  all: rewrite (proj1 (Htail _)), (proj2 (Htail _)).
  all: cbn [this with_config set_this Game.config Game.set_config to_String].
  all: unfold scaled.
  all: cbn [Config.timeLimit Config.timeModifier Config.set_language Config.set_userId].
  all: destruct (Config.timeLimit c6) as [limit|]; [destruct (num_truthy limit)|].
  all: split; reflexivity.
Qed.

Lemma parseInputParams_config_witness :
  language_is_null Sample.query = false /\
  result (@constructor ExactEngine.engine Sample.hanoi
            (Env.mk Sample.query Sample.mock false) ∅ 0) = Returned tt /\
  Game.config (this (final (@constructor ExactEngine.engine Sample.hanoi
                              (Env.mk Sample.query Sample.mock false) ∅ 0)))
  = @described_config_with_user ExactEngine.engine (default_config Sample.hanoi)
      Sample.query (Bridge.user Sample.mock).
Proof.
  split; [ reflexivity
         | apply (@parseInputParams_config ExactEngine.engine Sample.hanoi
                    (Env.mk Sample.query Sample.mock false) ∅ 0); reflexivity ].
Defined.

(** C3 as stated fails twice.  With a user record and no parameter the code
    stores the user's id, which the described configuration leaves [null];
    and on the query string [?lang=] the method throws instead of yielding a
    configuration. *)
Lemma parseInputParams_counterexample :
  (Config.userId (Game.config (this (Sample.built Sample.hanoi [] Sample.mock)))
   = Some 123456789 /\
   Config.userId (@described_config ExactEngine.engine (default_config Sample.hanoi) []
                    (Bridge.user Sample.mock)) = None) /\
  result (@constructor ExactEngine.engine Sample.hanoi
            (Env.mk [("lang", "")] Sample.mock false) ∅ 0)
  = Thrown (TypeError "Cannot read properties of null (reading 'split')").
Proof. repeat split; vm_compute; reflexivity. Qed.

(** ** The length of a string *)



(** ** Running [sendResult] *)

Section Runs.
Context {A B : Type}.

Lemma runs_bind_ret (m : M A) (f : A -> M B) w a w1 es1 o w2 es2 :
  runs_to m w (Returned a) w1 es1 -> runs_to (f a) w1 o w2 es2 ->
  runs_to (m ≫= f) w o w2 (es1 ++ es2).
Proof. unfold runs_to. intros Hm Hf. rewrite run_bind, Hm. cbn. rewrite Hf. reflexivity. Qed.

Lemma runs_bind_throw (m : M A) (f : A -> M B) w e w1 es1 :
  runs_to m w (Thrown e) w1 es1 -> runs_to (m ≫= f) w (Thrown e) w1 es1.
Proof. unfold runs_to. intros Hm. rewrite run_bind, Hm. reflexivity. Qed.

Lemma runs_try_ret (body : M A) (h : JSError -> M A) w a w1 es1 :
  runs_to body w (Returned a) w1 es1 -> runs_to (try_catch body h) w (Returned a) w1 es1.
Proof. unfold runs_to. intros Hm. rewrite run_try, Hm. reflexivity. Qed.

Lemma runs_try_throw (body : M A) (h : JSError -> M A) w e w1 es1 o w2 es2 :
  runs_to body w (Thrown e) w1 es1 -> runs_to (h e) w1 o w2 es2 ->
  runs_to (try_catch body h) w o w2 (es1 ++ es2).
Proof. unfold runs_to. intros Hm Hh. rewrite run_try, Hm. cbn. rewrite Hh. reflexivity. Qed.

Lemma runs_to_known (m : M A) w o w' es w'' es' :
  runs_to m w o w'' es' -> w' = w'' -> es = es' -> m w = mkRun o w' es.
Proof. unfold runs_to. intros -> -> ->. reflexivity. Qed.

End Runs.

Lemma ultraCompact_serialises `{Engine} (r : Result.t) :
  exists u, JSON_stringify (ultraCompact r) = Some u.
Proof.
  unfold ultraCompact, JSON_stringify.
  destruct (Result.sessionId r), (Result.gameId r), (Result.userId r);
    cbn; eexists; reflexivity.
Qed.

Lemma error_record_serialises `{Engine} (msg : string) (r : Result.t) :
  exists record,
    JSON_stringify [("error", JStr msg);
                    ("result", JObj [("sessionId", jstr_null (Result.sessionId r));
                                     ("gameId", jstr_undef (Result.gameId r));
                                     ("score", JNum (Result.score r))])]
    = Some record.
Proof.
  unfold JSON_stringify.
  destruct (Result.sessionId r), (Result.gameId r); cbn; eexists; reflexivity.
Qed.

Section CurrentPaths.
Context {E : Engine} (r : Result.t) (w : World).

Lemma Current_invalid :
  invalid r = true ->
  Current.sendResult r w =
  mkRun (Returned tt) w
    [Now (Act (Console LLog "📤 Sending result:"));
     Now (Act (Console LError "❌ Invalid result: missing sessionId or gameId"))].
Proof. intros Hinv. unfold Current.sendResult. rewrite Hinv. reflexivity. Qed.

Lemma Current_unserialisable :
  invalid r = false ->
  JSON_stringify (compactResult r) = None ->
  exists record,
    Current.sendResult r w =
    mkRun (Returned tt)
      (set_localStorage (<[error_key w := record]> (localStorage w)) w)
      [Now (Act (Console LLog "📤 Sending result:"));
       Now (Act (Console LError "❌ Error sending result:"));
       Now (Act (StorageSet (error_key w) record));
       Now (Act (Alert "Error sending result. Data saved locally for recovery."))].
Proof.
  intros Hvalid Hs.
  destruct (error_record_serialises "Do not know how to serialize a BigInt" r)
    as [record Hrec].
  exists record. unfold Current.sendResult, stringify. execute @runs_to_known @runs_bind_ret @runs_bind_throw @runs_try_ret @runs_try_throw.
Qed.

Lemma Current_oversize (s : string) :
  invalid r = false ->
  JSON_stringify (compactResult r) = Some s ->
  (4096 < js_length s)%nat ->
  exists record,
    Current.sendResult r w =
    mkRun (Returned tt)
      (set_localStorage (<[error_key w := record]> (localStorage w)) w)
      [Now (Act (Console LLog "📤 Sending result:"));
       Now (Act (Console LLog ("📏 Result size: " +:+ pretty (js_length s)
                                 +:+ " bytes (limit: 4096)")));
       Now (Act (Console LError ("❌ Result too large: " +:+ pretty (js_length s)
                                   +:+ " bytes")));
       Now (Act (Console LError "❌ Error sending result:"));
       Now (Act (StorageSet (error_key w) record));
       Now (Act (Alert "Error sending result. Data saved locally for recovery."))].
Proof.
  intros Hvalid Hs Hlen.
  apply Nat.ltb_lt in Hlen.
  destruct (ultraCompact_serialises r) as [u Hu].
  destruct (error_record_serialises "Assignment to constant variable." r) as [record Hrec].
  exists record. unfold Current.sendResult, stringify. execute @runs_to_known @runs_bind_ret @runs_bind_throw @runs_try_ret @runs_try_throw.
Qed.

Lemma Current_sent (s : string) (host : string -> option JSError) :
  invalid r = false ->
  JSON_stringify (compactResult r) = Some s ->
  (js_length s <= 4096)%nat ->
  Bridge.sendData (Env.tg (env w)) = Some host ->
  host s = None ->
  Current.sendResult r w =
  mkRun (Returned tt)
    (set_localStorage
       (<["last_send_time" := toISOString (clock w)]>
          (<["game_result_latest" := s]> (localStorage w))) w)
    [Now (Act (Console LLog "📤 Sending result:"));
     Now (Act (Console LLog ("📏 Result size: " +:+ pretty (js_length s)
                               +:+ " bytes (limit: 4096)")));
     Now (Act (Console LLog ("✅ Result validated: " +:+ pretty (js_length s)
                               +:+ " bytes")));
     Now (Act (Console LLog "📤 Calling Telegram.WebApp.sendData()..."));
     Now (Act (StorageSet "game_result_latest" s));
     Now (Act (StorageSet "last_send_time" (toISOString (clock w))));
     Now (Act (SendData s));
     Now (Act (Console LLog "✅ Data sent! Telegram will close WebApp automatically."))].
Proof.
  intros Hvalid Hs Hlen Hhost Hok.
  apply Nat.ltb_ge in Hlen.
  unfold Current.sendResult, stringify, call_sendData. execute @runs_to_known @runs_bind_ret @runs_bind_throw @runs_try_ret @runs_try_throw.
Qed.

Lemma Current_send_fails (s : string) (host : string -> option JSError) (e : JSError) :
  invalid r = false ->
  JSON_stringify (compactResult r) = Some s ->
  (js_length s <= 4096)%nat ->
  Bridge.sendData (Env.tg (env w)) = Some host ->
  host s = Some e ->
  exists record,
    Current.sendResult r w =
    mkRun (Returned tt)
      (set_localStorage
         (<[error_key w := record]>
            (<["last_send_time" := toISOString (clock w)]>
               (<["game_result_latest" := s]> (localStorage w)))) w)
      [Now (Act (Console LLog "📤 Sending result:"));
       Now (Act (Console LLog ("📏 Result size: " +:+ pretty (js_length s)
                                 +:+ " bytes (limit: 4096)")));
       Now (Act (Console LLog ("✅ Result validated: " +:+ pretty (js_length s)
                                 +:+ " bytes")));
       Now (Act (Console LLog "📤 Calling Telegram.WebApp.sendData()..."));
       Now (Act (StorageSet "game_result_latest" s));
       Now (Act (StorageSet "last_send_time" (toISOString (clock w))));
       Now (Act (SendData s));
       Now (Act (Console LError "❌ Error sending result:"));
       Now (Act (StorageSet (error_key w) record));
       Now (Act (Alert "Error sending result. Data saved locally for recovery."))].
Proof.
  intros Hvalid Hs Hlen Hhost Hfail.
  apply Nat.ltb_ge in Hlen.
  destruct (error_record_serialises (message e) r) as [record Hrec].
  exists record.
  unfold Current.sendResult, stringify, call_sendData. execute @runs_to_known @runs_bind_ret @runs_bind_throw @runs_try_ret @runs_try_throw.
Qed.

Lemma Current_fallback (s : string) :
  invalid r = false ->
  JSON_stringify (compactResult r) = Some s ->
  (js_length s <= 4096)%nat ->
  Bridge.sendData (Env.tg (env w)) = None ->
  Current.sendResult r w =
  mkRun (Returned tt)
    (set_localStorage
       (<["game_result_latest" := s]> (<[session_key w := s]> (localStorage w))) w)
    [Now (Act (Console LLog "📤 Sending result:"));
     Now (Act (Console LLog ("📏 Result size: " +:+ pretty (js_length s)
                               +:+ " bytes (limit: 4096)")));
     Now (Act (Console LLog ("✅ Result validated: " +:+ pretty (js_length s)
                               +:+ " bytes")));
     Now (Act (Console LWarn "⚠️ Telegram.WebApp.sendData() not available"));
     Now (Act (Console LLog "💾 Saving to localStorage instead"));
     Now (Act (StorageSet (session_key w) s));
     Now (Act (StorageSet "game_result_latest" s));
     Now (Act (Alert ("Game completed!" +:+ newline +:+ newline
                        +:+ "Result saved to localStorage (testing mode)")))].
Proof.
  intros Hvalid Hs Hlen Hhost.
  apply Nat.ltb_ge in Hlen.
  unfold Current.sendResult, stringify. execute @runs_to_known @runs_bind_ret @runs_bind_throw @runs_try_ret @runs_try_throw.
Qed.

End CurrentPaths.

Lemma stringify_wrapped `{Engine} (msg : string) (props : list (string * json)) :
  JSON_stringify [("error", JStr msg); ("result", JObj props)]
  = match JSON_stringify props with
    | Some s => Some ("{" +:+ join "," [quote "error" +:+ ":" +:+ quote msg;
                                        quote "result" +:+ ":" +:+ s] +:+ "}")
    | None => None
    end.
Proof.
  unfold JSON_stringify. cbn [serialize].
  match goal with
  | |- context [match ?f props with Some _ => _ | None => _ end] => destruct (f props)
  end; reflexivity.
Qed.

Section WorkingPaths.
Context {E : Engine} (r : Result.t) (w : World).

Lemma Working_invalid :
  invalid r = true ->
  Working.sendResult r w =
  mkRun (Returned tt) w
    [Now (Act (Console LLog "📤 Sending result:"));
     Now (Act (Console LError "❌ Invalid result: missing sessionId or gameId"))].
Proof. intros Hinv. unfold Working.sendResult. rewrite Hinv. reflexivity. Qed.

Lemma Working_unserialisable :
  invalid r = false ->
  JSON_stringify (result_props r) = None ->
  Working.sendResult r w =
  mkRun (Thrown (TypeError "Do not know how to serialize a BigInt")) w
    [Now (Act (Console LLog "📤 Sending result:"));
     Now (Act (Console LError "❌ Error sending result:"))].
Proof.
  intros Hvalid Hs.
  pose proof (stringify_wrapped "Do not know how to serialize a BigInt" (result_props r)) as Hrec.
  rewrite Hs in Hrec.
  unfold Working.sendResult, stringify.
  execute @runs_to_known @runs_bind_ret @runs_bind_throw @runs_try_ret @runs_try_throw.
Qed.

Lemma Working_sent (s : string) (host : string -> option JSError) :
  invalid r = false ->
  JSON_stringify (result_props r) = Some s ->
  Bridge.sendData (Env.tg (env w)) = Some host ->
  host s = None ->
  Working.sendResult r w =
  mkRun (Returned tt) w
    (Now (Act (Console LLog "📤 Sending result:"))
     :: (if (4096 <? js_length s)%nat
         then [Now (Act (Console LWarn ("⚠️ Result size: " +:+ pretty (js_length s)
                                          +:+ " bytes (limit: 4096)")))]
         else [])
     ++ [Now (Act (Console LLog ("✅ Result validated: " +:+ pretty (js_length s)
                                   +:+ " bytes")));
         Now (Act (SendData s));
         Now (Act (Console LLog "✅ Result sent via Telegram.WebApp.sendData()"));
         Now (SetTimeout [Console LLog "🚪 Closing WebApp..."; Close] 1500)]).
Proof.
  intros Hvalid Hs Hhost Hok.
  unfold Working.sendResult, stringify, call_sendData.
  destruct (4096 <? js_length s)%nat eqn:Hlen;
    execute @runs_to_known @runs_bind_ret @runs_bind_throw @runs_try_ret @runs_try_throw.
Qed.

Lemma Working_send_fails (s : string) (host : string -> option JSError) (e : JSError) :
  invalid r = false ->
  JSON_stringify (result_props r) = Some s ->
  Bridge.sendData (Env.tg (env w)) = Some host ->
  host s = Some e ->
  exists record,
    Working.sendResult r w =
    mkRun (Returned tt)
      (set_localStorage (<[error_key w := record]> (localStorage w)) w)
      (Now (Act (Console LLog "📤 Sending result:"))
       :: (if (4096 <? js_length s)%nat
           then [Now (Act (Console LWarn ("⚠️ Result size: " +:+ pretty (js_length s)
                                            +:+ " bytes (limit: 4096)")))]
           else [])
       ++ [Now (Act (Console LLog ("✅ Result validated: " +:+ pretty (js_length s)
                                     +:+ " bytes")));
           Now (Act (SendData s));
           Now (Act (Console LError "❌ Error sending result:"));
           Now (Act (StorageSet (error_key w) record));
           Now (Act (Alert "Error sending result. Data saved locally for recovery."))]).
Proof.
  intros Hvalid Hs Hhost Hfail.
  pose proof (stringify_wrapped (message e) (result_props r)) as Hrec.
  rewrite Hs in Hrec.
  eexists.
  unfold Working.sendResult, stringify, call_sendData.
  destruct (4096 <? js_length s)%nat eqn:Hlen;
    execute @runs_to_known @runs_bind_ret @runs_bind_throw @runs_try_ret @runs_try_throw.
Qed.

Lemma Working_fallback (s : string) :
  invalid r = false ->
  JSON_stringify (result_props r) = Some s ->
  Bridge.sendData (Env.tg (env w)) = None ->
  Working.sendResult r w =
  mkRun (Returned tt)
    (set_localStorage
       (<["game_result_latest" := s]> (<[session_key w := s]> (localStorage w))) w)
    (Now (Act (Console LLog "📤 Sending result:"))
     :: (if (4096 <? js_length s)%nat
         then [Now (Act (Console LWarn ("⚠️ Result size: " +:+ pretty (js_length s)
                                          +:+ " bytes (limit: 4096)")))]
         else [])
     ++ [Now (Act (Console LLog ("✅ Result validated: " +:+ pretty (js_length s)
                                   +:+ " bytes")));
         Now (Act (Console LWarn "⚠️ Telegram.WebApp.sendData() not available"));
         Now (Act (Console LLog "💾 Saving to localStorage instead"));
         Now (Act (StorageSet (session_key w) s));
         Now (Act (StorageSet "game_result_latest" s));
         Now (Act (Alert ("Game completed!" +:+ newline +:+ newline
                            +:+ "Result saved to localStorage (testing mode)")))]).
Proof.
  intros Hvalid Hs Hhost.
  unfold Working.sendResult, stringify.
  destruct (4096 <? js_length s)%nat eqn:Hlen;
    execute @runs_to_known @runs_bind_ret @runs_bind_throw @runs_try_ret @runs_try_throw.
Qed.

End WorkingPaths.

(** ** What [sendResult] sends *)

(** [sendResult] of src/game-interface.js calls the host's [sendData] at most
    once, whatever the result and the world: it never retries. *)
Lemma Current_sends_at_most_once `{Engine} (r : Result.t) (w : World) :
  (sends (emitted (Current.sendResult r w)) <= 1)%nat.
Proof.
  destruct (invalid r) eqn:Hinv; [rewrite Current_invalid by assumption; cbn; lia|].
  destruct (JSON_stringify (compactResult r)) as [s|] eqn:Hs.
  - destruct (le_lt_dec (js_length s) 4096) as [Hfit|Hbig].
    + destruct (Bridge.sendData (Env.tg (env w))) as [host|] eqn:Hhost.
      * destruct (host s) as [e|] eqn:Hcall.
        -- destruct (Current_send_fails r w s host e) as [record ->]; try assumption.
           cbn; lia.
        -- rewrite (Current_sent r w s host) by assumption. cbn; lia.
      * rewrite (Current_fallback r w s) by assumption. cbn; lia.
    + destruct (Current_oversize r w s) as [record ->]; try assumption. cbn; lia.
  - destruct (Current_unserialisable r w) as [record ->]; try assumption. cbn; lia.
Qed.

(** So does [sendResult] of src/game-interface_working.js. *)
Lemma Working_sends_at_most_once `{Engine} (r : Result.t) (w : World) :
  (sends (emitted (Working.sendResult r w)) <= 1)%nat.
Proof.
  destruct (invalid r) eqn:Hinv; [rewrite Working_invalid by assumption; cbn; lia|].
  destruct (JSON_stringify (result_props r)) as [s|] eqn:Hs.
  - destruct (Bridge.sendData (Env.tg (env w))) as [host|] eqn:Hhost.
    + destruct (host s) as [e|] eqn:Hcall.
      * destruct (Working_send_fails r w s host e) as [record ->]; try assumption.
        destruct (4096 <? js_length s)%nat; cbn; lia.
      * rewrite (Working_sent r w s host) by assumption.
        destruct (4096 <? js_length s)%nat; cbn; lia.
    + rewrite (Working_fallback r w s) by assumption.
      destruct (4096 <? js_length s)%nat; cbn; lia.
  - rewrite Working_unserialisable by assumption. cbn; lia.
Qed.

(** C2 fails on src/unnamed/part_000: whenever the host's [sendData] is a
    function and the result serialises, that copy of [sendResult] calls it
    twice with the same payload, whether the first call returned or threw. *)
Theorem Part000_sends_twice `{Engine} (r : Result.t) (w : World) (s : string)
    (host : string -> option JSError) :
  JSON_stringify (result_props r) = Some s ->
  Bridge.sendData (Env.tg (env w)) = Some host ->
  sends (emitted (Part000.sendResult r w)) = 2%nat /\
  List.filter is_send (emitted (Part000.sendResult r w))
  = [Now (Act (SendData s)); Now (Act (SendData s))].
Proof.
  intros Hs Hhost.
  destruct (host s) as [e|] eqn:Hcall;
  destruct (opt_str_truthy (Config.sessionId (Game.config (this w)))) eqn:Hsid.
  all: eassert (Hrun : runs_to (Part000.sendResult r) w _ _ _)
    by (unfold Part000.sendResult, stringify, tg_sendData, call_sendData;
        run @runs_bind_ret @runs_bind_throw @runs_try_ret @runs_try_throw).
  all: unfold runs_to in Hrun; rewrite Hrun; split; reflexivity.
Qed.

(** ** Claims about [sendResult] of src/game-interface.js *)

(** C8.  A result whose [sessionId] or [gameId] is falsy makes [sendResult]
    return at once: it writes two lines to the console and nothing else, so
    the host's [sendData] is not called, local storage is not written, and
    the world (the object's state and local storage) is what it was. *)
Theorem sendResult_rejects_invalid `{Engine} (r : Result.t) (w : World) :
  opt_str_truthy (Result.sessionId r) = false \/ opt_str_truthy (Result.gameId r) = false ->
  result (Current.sendResult r w) = Returned tt /\
  final (Current.sendResult r w) = w /\
  emitted (Current.sendResult r w)
  = [Now (Act (Console LLog "📤 Sending result:"));
     Now (Act (Console LError "❌ Invalid result: missing sessionId or gameId"))] /\
  sends (emitted (Current.sendResult r w)) = 0%nat /\
  writes (emitted (Current.sendResult r w)) = 0%nat.
Proof.
  intros Hfalsy.
  assert (Hinv : invalid r = true).
  { unfold invalid. destruct Hfalsy as [-> | ->]; [reflexivity|].
    apply orb_true_r. }
  rewrite (Current_invalid r w Hinv). repeat split.
Qed.

Lemma sendResult_rejects_invalid_witness :
  (opt_str_truthy (Result.sessionId (Sample.result_in Sample.standalone_anonymous)) = false \/
   opt_str_truthy (Result.gameId (Sample.result_in Sample.standalone_anonymous)) = false) /\
  final (Sample.send current_js Sample.standalone_anonymous) = Sample.standalone_anonymous /\
  sends (emitted (Sample.send current_js Sample.standalone_anonymous)) = 0%nat.
Proof.
  assert (Hfalsy :
    opt_str_truthy (Result.sessionId (Sample.result_in Sample.standalone_anonymous)) = false \/
    opt_str_truthy (Result.gameId (Sample.result_in Sample.standalone_anonymous)) = false)
    by (left; vm_compute; reflexivity).
  split; [exact Hfalsy|].
  pose proof (@sendResult_rejects_invalid ExactEngine.engine
                (Sample.result_in Sample.standalone_anonymous) Sample.standalone_anonymous Hfalsy)
    as (_ & Hfinal & _ & Hsends & _).
  split; assumption.
Defined.

(** C1 (amended).  For a result that passes the validation and whose compact
    serialisation is longer than 4096 UTF-16 code units, the [length] the
    code tests, [sendResult] logs the size as an error and degrades,
    substituting an ultra-compact payload or falling back to local storage
    with an alert, and it returns: no error reaches the caller. *)
Theorem sendResult_oversize `{Engine} (r : Result.t) (w : World) (s : string) :
  invalid r = false ->
  JSON_stringify (compactResult r) = Some s ->
  (4096 < js_length s)%nat ->
  result (Current.sendResult r w) = Returned tt /\
  In (Now (Act (Console LError ("❌ Result too large: " +:+ pretty (js_length s)
                                  +:+ " bytes"))))
     (emitted (Current.sendResult r w)) /\
  ((exists u, JSON_stringify (ultraCompact r) = Some u /\
              In (Now (Act (SendData u))) (emitted (Current.sendResult r w))) \/
   (exists key value,
      In (Now (Act (StorageSet key value))) (emitted (Current.sendResult r w)) /\
      localStorage (final (Current.sendResult r w)) !! key = Some value /\
      In (Now (Act (Alert "Error sending result. Data saved locally for recovery.")))
         (emitted (Current.sendResult r w)))).
Proof.
  intros Hvalid Hs Hlen.
  destruct (Current_oversize r w s Hvalid Hs Hlen) as [record ->].
  cbn [result final emitted]. split; [reflexivity|]. split; [simpl; tauto|].
  right. exists (error_key w), record. split; [simpl; tauto|]. split; [|simpl; tauto].
  cbn [localStorage set_localStorage]. apply lookup_insert_eq.
Qed.

Lemma sendResult_oversize_witness :
  invalid (Sample.result_in Sample.wordy) = false /\
  @JSON_stringify ExactEngine.engine (compactResult (Sample.result_in Sample.wordy))
  = Some (Sample.compact_text Sample.wordy) /\
  (4096 < js_length (Sample.compact_text Sample.wordy))%nat /\
  result (Sample.send current_js Sample.wordy) = Returned tt.
Proof.
  assert (Hvalid : invalid (Sample.result_in Sample.wordy) = false) by (vm_compute; reflexivity).
  assert (Hs : @JSON_stringify ExactEngine.engine (compactResult (Sample.result_in Sample.wordy))
               = Some (Sample.compact_text Sample.wordy)) by (vm_compute; reflexivity).
  assert (Hlen : (4096 < js_length (Sample.compact_text Sample.wordy))%nat)
    by (apply Nat.ltb_lt; vm_compute; reflexivity).
  repeat (split; [assumption|]).
  exact (proj1 (@sendResult_oversize ExactEngine.engine (Sample.result_in Sample.wordy) Sample.wordy
                  (Sample.compact_text Sample.wordy) Hvalid Hs Hlen)).
Defined.

(** C1 as stated fails twice.  On a result the validation rejects, whose
    compact serialisation is longer than 4096, [sendResult] logs nothing
    about the size, stores nothing and shows no alert.  And the code measures
    [resultString.length], in UTF-16 code units, not bytes: the compact
    serialisation of a result with a long Cyrillic name has more than 4096
    bytes and at most 4096 code units, and [sendResult] hands it to the host
    as it is, with no error logged. *)
Lemma sendResult_oversize_counterexample :
  ((4096 <? js_length (Sample.compact_text Sample.wordy_anonymous))%nat = true /\
   Sample.compact Sample.wordy_anonymous = Some (Sample.compact_text Sample.wordy_anonymous) /\
   Sample.send current_js Sample.wordy_anonymous
   = mkRun (Returned tt) Sample.wordy_anonymous
       [Now (Act (Console LLog "📤 Sending result:"));
        Now (Act (Console LError "❌ Invalid result: missing sessionId or gameId"))]) /\
  (Sample.compact Sample.wide = Some (Sample.compact_text Sample.wide) /\
   (4096 <? String.length (Sample.compact_text Sample.wide))%nat = true /\
   (js_length (Sample.compact_text Sample.wide) <=? 4096)%nat = true /\
   List.filter is_send (emitted (Sample.send current_js Sample.wide))
   = [Now (Act (SendData (Sample.compact_text Sample.wide)))] /\
   existsb (fun e => match e with Now (Act (Console LError _)) => true | _ => false end)
     (emitted (Sample.send current_js Sample.wide)) = false).
Proof.
  split.
  - split; [vm_compute; reflexivity|]. split; [vm_compute; reflexivity|].
    apply (@Current_invalid ExactEngine.engine). vm_compute; reflexivity.
  - assert (Hvalid : invalid (Sample.result_in Sample.wide) = false) by (vm_compute; reflexivity).
    assert (Hs : @JSON_stringify ExactEngine.engine (compactResult (Sample.result_in Sample.wide))
                 = Some (Sample.compact_text Sample.wide)) by (vm_compute; reflexivity).
    assert (Hlen : (js_length (Sample.compact_text Sample.wide) <= 4096)%nat)
      by (apply Nat.leb_le; vm_compute; reflexivity).
    split; [exact Hs|]. split; [vm_compute; reflexivity|].
    split; [vm_compute; reflexivity|].
    unfold Sample.send. cbn [sendResult].
    rewrite (@Current_sent ExactEngine.engine (Sample.result_in Sample.wide) Sample.wide
               (Sample.compact_text Sample.wide) (fun _ => None) Hvalid Hs Hlen eq_refl eq_refl).
    split; reflexivity.
Qed.




Lemma Part000_sends_twice_witness :
  @JSON_stringify ExactEngine.engine (result_props (Sample.result_in Sample.hosted))
  = Some (default "" (@JSON_stringify ExactEngine.engine (result_props (Sample.result_in Sample.hosted)))) /\
  is_Some (Bridge.sendData (Env.tg (env Sample.hosted))) /\
  sends (emitted (Sample.send part_000 Sample.hosted)) = 2%nat.
Proof.
  assert (Hs : @JSON_stringify ExactEngine.engine (result_props (Sample.result_in Sample.hosted))
    = Some (default "" (@JSON_stringify ExactEngine.engine (result_props (Sample.result_in Sample.hosted)))))
    by (vm_compute; reflexivity).
  split; [exact Hs|]. split; [eexists; reflexivity|].
  exact (proj1 (@Part000_sends_twice ExactEngine.engine (Sample.result_in Sample.hosted) Sample.hosted _
                  (fun _ => None) Hs eq_refl)).
Defined.

(** ** Asynchrony of the result-sending path *)

#[local] Hint Resolve emits_ret emits_throw emits_get_world emits_Date_now emits_stringify
  emits_assign_const : frame.
#[local] Hint Extern 1 (emits _ (console_log _)) => apply emits_perform; reflexivity : frame.
#[local] Hint Extern 1 (emits _ (console_warn _)) => apply emits_perform; reflexivity : frame.
#[local] Hint Extern 1 (emits _ (console_error _)) => apply emits_perform; reflexivity : frame.
#[local] Hint Extern 1 (emits _ (alert _)) => apply emits_perform; reflexivity : frame.
#[local] Hint Extern 1 (emits _ (setItem _ _)) => apply emits_setItem; reflexivity : frame.
#[local] Hint Extern 1 (emits _ (call_sendData _ _)) =>
  apply emits_call_sendData; reflexivity : frame.
#[local] Hint Extern 1 (emits _ (tg_sendData _)) =>
  apply emits_tg_sendData; reflexivity : frame.
#[local] Hint Extern 1 (emits _ (emit _)) => apply emits_emit; reflexivity : frame.


(** ** Timers and hand-offs *)







Section WorkingTimer.
Context {E : Engine} (r : Result.t) (w : World).


End WorkingTimer.

Section Part000Request.
Context {E : Engine} (r : Result.t) (w : World).


End Part000Request.



(* ===================================================================== *)
(** ** What the methods leave alone *)
(* ===================================================================== *)

#[local] Instance same_status_preorder : PreOrder same_status.
Proof.
  split; [intros w; reflexivity|].
  intros a b c Hab Hbc. unfold same_status in *. congruence.
Qed.

#[local] Instance same_milestones_preorder : PreOrder same_milestones.
Proof.
  split; [intros w; reflexivity|].
  intros a b c Hab Hbc. unfold same_milestones in *. congruence.
Qed.

Lemma keeps_of_final {A} (R : World -> World -> Prop) `{!Reflexive R} (m : M A) :
  (forall w, final (m w) = w) -> keeps R m.
Proof. intros Hm w. rewrite Hm. reflexivity. Qed.

Section Untouched.
Context {E : Engine} {H : Hooks}.

Lemma status_setItem k v : keeps same_status (setItem k v).
Proof. intros w. reflexivity. Qed.

Lemma status_modify_config f : keeps same_status (modify_config f).
Proof. intros w. reflexivity. Qed.

Lemma status_set_startTime v : keeps same_status (modify_state (State.set_startTime v)).
Proof. intros w. reflexivity. Qed.

Lemma status_set_endTime v : keeps same_status (modify_state (State.set_endTime v)).
Proof. intros w. reflexivity. Qed.

Lemma status_set_timeElapsed v : keeps same_status (modify_state (State.set_timeElapsed v)).
Proof. intros w. reflexivity. Qed.

Lemma milestones_setItem k v : keeps same_milestones (setItem k v).
Proof. intros w. reflexivity. Qed.

Lemma milestones_modify_config f : keeps same_milestones (modify_config f).
Proof. intros w. reflexivity. Qed.

Lemma milestones_modify_state f : keeps same_milestones (modify_state f).
Proof. intros w. reflexivity. Qed.

(** [sendEvent], [generateResult] and [getMilestonesSummary] write nothing. *)
Lemma sendEvent_final (n : string) (d : json) (w : World) : final (sendEvent n d w) = w.
Proof. destruct w as [g [search tg embedded] ls now]. destruct embedded; reflexivity. Qed.

Lemma getMilestonesSummary_final (w : World) : final (getMilestonesSummary w) = w.
Proof.
  unfold getMilestonesSummary. rewrite run_bind. cbn [get_this result final emitted].
  destruct (length (Game.milestones (this w)) =? 0)%nat; reflexivity.
Qed.

Lemma generateResult_final (success : bool) (w : World) : final (generateResult success w) = w.
Proof.
  unfold generateResult. rewrite run_bind. cbn [get_world result final emitted].
  rewrite run_bind, getMilestonesSummary_final.
  destruct (result (getMilestonesSummary w)); reflexivity.
Qed.

Lemma pure_call_final {A} (f : Game.t -> A) (w : World) : final (pure_call f w) = w.
Proof. reflexivity. Qed.

Lemma setTranslations_final tr loading (w : World) :
  final (setTranslations tr loading w) = set_this (Game.set_translations tr (this w)) w.
Proof. destruct loading; reflexivity. Qed.

(** [recordMilestone] returns the milestone it appends. *)
Lemma recordMilestone_run (n : string) (md : json) (w : World) :
  exists m,
    result (recordMilestone n md w) = Returned m /\
    final (recordMilestone n md w)
    = set_this (Game.set_milestones (Game.milestones (this w) ++ [m]) (this w)) w.
Proof.
  destruct w as [g [search tg embedded] ls now].
  destruct embedded; eexists; split; reflexivity.
Qed.

End Untouched.

#[local] Hint Resolve status_setItem status_modify_config status_set_startTime
  status_set_endTime status_set_timeElapsed milestones_setItem milestones_modify_config
  milestones_modify_state : frame.
#[local] Hint Extern 1 (keeps _ (sendEvent _ _)) =>
  apply keeps_of_final; [exact _ | apply sendEvent_final] : frame.
#[local] Hint Extern 1 (keeps _ (generateResult _)) =>
  apply keeps_of_final; [exact _ | apply generateResult_final] : frame.
#[local] Hint Extern 1 (keeps _ getMilestonesSummary) =>
  apply keeps_of_final; [exact _ | apply getMilestonesSummary_final] : frame.
#[local] Hint Extern 1 (keeps _ (pure_call _)) =>
  apply keeps_of_final; [exact _ | apply pure_call_final] : frame.

Section Kept.
Context {E : Engine} {H : Hooks}.
Context (R : World -> World -> Prop) {HR : PreOrder R}.
Context (Hset : forall k v, keeps R (setItem k v)).
Context (Hcfg : forall f, keeps R (modify_config f)).

Lemma keeps_sendResult (c : copy) (r : Result.t) : keeps R (sendResult c r).
Proof.
  destruct c; unfold sendResult, Current.sendResult, Working.sendResult, Part000.sendResult;
    through @keeps_bind @keeps_try.
Qed.

Lemma keeps_parseInputParams : keeps R parseInputParams.
Proof. unfold parseInputParams. through @keeps_bind @keeps_try. Qed.

Lemma keeps_initTelegram : keeps R initTelegram.
Proof. unfold initTelegram. through @keeps_bind @keeps_try. Qed.

Lemma keeps_applyTranslations : keeps R applyTranslations.
Proof. unfold applyTranslations. through @keeps_bind @keeps_try. Qed.

Lemma keeps_handleThemeChange : keeps R handleThemeChange.
Proof. unfold handleThemeChange. through @keeps_bind @keeps_try. Qed.

End Kept.

#[local] Hint Extern 1 (keeps _ (sendResult _ _)) =>
  apply keeps_sendResult; [exact _ | eauto with frame] : frame.
#[local] Hint Extern 1 (keeps _ parseInputParams) =>
  apply keeps_parseInputParams; [exact _ | eauto with frame] : frame.
#[local] Hint Resolve keeps_initTelegram keeps_applyTranslations keeps_handleThemeChange
  : frame.

(* ===================================================================== *)
(** ** The session's status *)
(* ===================================================================== *)

Section Status.
Context {E : Engine} {H : Hooks}.

Lemma final_bind_returned {A B} (m : M A) (f : A -> M B) (w : World) (a : A) :
  result (m w) = Returned a -> final ((m ≫= f) w) = final (f a (final (m w))).
Proof. intros Hm. rewrite run_bind, Hm. reflexivity. Qed.

Lemma status_setTranslations tr loading : keeps same_status (setTranslations tr loading).
Proof. intros w. rewrite setTranslations_final. reflexivity. Qed.

Lemma status_recordMilestone n md : keeps same_status (recordMilestone n md).
Proof.
  intros w. destruct (recordMilestone_run n md w) as (m & _ & ->). reflexivity.
Qed.

(** After a first statement that returns, what the rest keeps relates the
    world that statement leaves to the final one. *)
Lemma keeps_rest {A B} (R : World -> World -> Prop) (m : M A) (k : A -> M B)
    (w : World) (a : A) :
  result (m w) = Returned a -> keeps R (k a) -> R (final (m w)) (final ((m ≫= k) w)).
Proof. intros Hm Hk. rewrite (final_bind_returned m k w a Hm). apply Hk. Qed.

Lemma status_start (w : World) : status_of (final (start w)) = "playing".
Proof.
  unfold start.
  transitivity (status_of (final (modify_state (State.set_status "playing") w)));
    [|reflexivity].
  apply (keeps_rest same_status _ _ w tt); [reflexivity|].
  through @keeps_bind @keeps_try.
Qed.

Lemma status_end (c : copy) (success : bool) (w : World) :
  status_of (final (end_ c success w)) = if success then "completed" else "failed".
Proof.
  unfold end_.
  transitivity (status_of (final (modify_state
    (State.set_status (if success then "completed" else "failed")) w))); [|reflexivity].
  apply (keeps_rest same_status _ _ w tt); [reflexivity|].
  through @keeps_bind @keeps_try.
Qed.

Lemma final_then_ret {A B} (m : M A) (b : B) (w : World) :
  final ((m ≫= fun _ => mret b) w) = final (m w).
Proof. rewrite run_bind. destruct (result (m w)); reflexivity. Qed.

Lemma status_handleExit (c : copy) (confirmed : bool) (w : World) :
  status_of (final (handleExit c confirmed w))
  = if String.eqb (status_of w) "playing" && confirmed then "failed" else status_of w.
Proof.
  unfold handleExit.
  rewrite (final_bind_returned get_this _ w (this w) eq_refl).
  change (final (get_this w)) with w. cbv beta.
  change (State.status (Game.state (this w))) with (status_of w).
  destruct (String.eqb (status_of w) "playing"); [|reflexivity].
  destruct confirmed; [|reflexivity].
  cbn [andb].
  rewrite (final_bind_returned (perform _) _ w tt eq_refl).
  change (final (perform (Confirm "Exit game? Progress will be lost.") w)) with w.
  rewrite final_then_ret.
  apply status_end.
Qed.

(** A method that keeps the status leaves the one it found. *)
Lemma status_kept {A} (m : M A) (w : World) :
  keeps same_status m -> status_of (final (m w)) = status_of w.
Proof. intros Hm. apply Hm. Qed.

Lemma status_invoke (c : copy) (k : call) (w : World) :
  status_of (final (invoke c k w)) = status_after k (status_of w).
Proof.
  destruct k; cbn [invoke status_after];
    try solve [ apply status_kept;
                pose proof status_setTranslations; pose proof status_recordMilestone;
                through @keeps_bind @keeps_try ].
  - apply status_start.
  - rewrite final_then_ret. apply status_end.
  - apply status_handleExit.
Qed.

Lemma status_happen (c : copy) (ev : event) (w : World) :
  In (status_of w) statuses -> In (status_of (happen c ev w)) statuses.
Proof.
  destruct ev as [k| |]; [|trivial..].
  cbn [happen]. rewrite status_invoke.
  destruct k; cbn [status_after]; trivial.
  - intros _. cbn. tauto.
  - intros _. destruct success; cbn; tauto.
  - intros Hw. destruct (_ && _); [cbn; tauto|exact Hw].
Qed.

Lemma status_constructor (gc : GameConfig.t) (page : Env.t) (storage : gmap string string)
    (time : Z) :
  status_of (final (constructor gc page storage time)) = "idle".
Proof.
  unfold constructor.
  change (same_status (mkWorld (initial_game gc) page storage time)
            (final ((initTelegram ;; parseInputParams)
                      (mkWorld (initial_game gc) page storage time)))).
  generalize (mkWorld (initial_game gc) page storage time).
  change (keeps same_status (initTelegram ;; parseInputParams)).
  through @keeps_bind @keeps_try.
Qed.

Lemma status_history (c : copy) (evs : list event) (w : World) :
  In (status_of w) statuses -> In (status_of (history c evs w)) statuses.
Proof.
  unfold history. revert w.
  induction evs as [|ev evs IH]; intros w Hw; [exact Hw|].
  cbn [fold_left]. apply IH, status_happen, Hw.
Qed.

End Status.

(** C6, amended.  The status is "idle" after construction; every call of a
    method leaves the status [status_after] gives: "playing" after [start],
    "completed" or "failed" after [end] by its argument, "failed" after a
    confirmed [handleExit] of a game that is playing (which calls
    [end(false)]), and the status it found after every other call; so after
    any history of calls, ticks of the clock and writes of the counters the
    status is one of the five listed values. *)
Theorem status_is_one_of_five `{Engine} `{Hooks} (c : copy) (gc : GameConfig.t)
    (page : Env.t) (storage : gmap string string) (time : Z) :
  status_of (final (constructor gc page storage time)) = "idle" /\
  (forall k w, status_of (final (invoke c k w)) = status_after k (status_of w)) /\
  (forall evs,
     In (status_of (history c evs (final (constructor gc page storage time)))) statuses).
Proof.
  split; [apply status_constructor|].
  split; [intros k w; apply status_invoke|].
  intros evs. apply status_history. rewrite status_constructor. cbn. tauto.
Qed.

(** C6 as stated fails on [handleExit]: in a game that is playing, when the
    player confirms, it leaves the status "failed". *)
Lemma status_handleExit_counterexample :
  status_of Sample.playing = "playing" /\
  status_of (final (@invoke ExactEngine.engine BaseHooks current_js (call_handleExit true)
                      Sample.playing))
  = "failed".
Proof. split; vm_compute; reflexivity. Qed.

(* ===================================================================== *)
(** ** Milestones *)
(* ===================================================================== *)

Section Milestones.
Context {E : Engine} {H : Hooks}.

Lemma milestones_kept {A} (m : M A) (w : World) :
  keeps same_milestones m -> Game.milestones (this (final (m w))) = Game.milestones (this w).
Proof. intros Hm. apply Hm. Qed.

Lemma milestones_setTranslations tr loading :
  keeps same_milestones (setTranslations tr loading).
Proof. intros w. rewrite setTranslations_final. reflexivity. Qed.

Lemma milestones_start : keeps same_milestones start.
Proof. unfold start. through @keeps_bind @keeps_try. Qed.

Lemma milestones_end (c : copy) (success : bool) : keeps same_milestones (end_ c success).
Proof. unfold end_. through @keeps_bind @keeps_try. Qed.

Lemma milestones_handleExit (c : copy) (confirmed : bool) :
  keeps same_milestones (handleExit c confirmed).
Proof.
  pose proof milestones_end.
  unfold handleExit. through @keeps_bind @keeps_try.
Qed.

Lemma milestones_invoke (c : copy) (k : call) (w : World) :
  Game.milestones (this (final (invoke c k w)))
  = (Game.milestones (this w) ++
     match k with
     | call_recordMilestone n md =>
         match returned (recordMilestone n md w) with Some m => [m] | None => [] end
     | _ => []
     end)%list.
Proof.
  destruct k; cbn [invoke];
    try solve [ rewrite app_nil_r; apply milestones_kept;
                pose proof milestones_setTranslations; pose proof milestones_start;
                pose proof milestones_end; pose proof milestones_handleExit;
                through @keeps_bind @keeps_try ].
  rewrite final_then_ret. unfold returned.
  destruct (recordMilestone_run milestoneName metadata w) as (m & -> & ->). reflexivity.
Qed.

Lemma milestones_history (c : copy) (evs : list event) (w : World) :
  Game.milestones (this (history c evs w)) = (Game.milestones (this w) ++ recorded c evs w)%list.
Proof.
  unfold history. revert w.
  induction evs as [|ev evs IH]; intros w; cbn [fold_left recorded].
  - rewrite app_nil_r. reflexivity.
  - rewrite IH. destruct ev as [k| |]; cbn [happen].
    + rewrite milestones_invoke, <- app_assoc. destruct k; reflexivity.
    + reflexivity.
    + reflexivity.
Qed.

Lemma recorded_length (c : copy) (evs : list event) (w : World) :
  length (recorded c evs w) = length (List.filter is_recordMilestone evs).
Proof.
  revert w. induction evs as [|ev evs IH]; intros w; [reflexivity|].
  cbn [recorded List.filter]. rewrite length_app, IH.
  destruct ev as [k| |]; try reflexivity.
  destruct k; try reflexivity.
  cbn [is_recordMilestone]. unfold returned.
  destruct (recordMilestone_run milestoneName metadata w) as (m & -> & _). reflexivity.
Qed.

Lemma milestones_constructor (gc : GameConfig.t) (page : Env.t)
    (storage : gmap string string) (time : Z) :
  Game.milestones (this (final (constructor gc page storage time))) = [].
Proof.
  unfold constructor.
  rewrite milestones_kept; [reflexivity|].
  through @keeps_bind @keeps_try.
Qed.

(** [getMilestonesSummary] returns the summary of [this.milestones]. *)
Lemma getMilestonesSummary_returns (w : World) :
  returned (getMilestonesSummary w) = Some (summary_of (Game.milestones (this w))).
Proof.
  unfold getMilestonesSummary, returned. rewrite run_bind.
  cbn [get_this result final emitted]. cbv zeta.
  destruct (Game.milestones (this w)) as [|m ms] eqn:Hms; [reflexivity|].
  cbn [length Nat.eqb summary_of result mret M_ret].
  rewrite <- head_lookup, last_lookup.
  replace (S (length ms) - 1)%nat with (Init.Nat.pred (length (m :: ms))) by (cbn; lia).
  reflexivity.
Qed.

End Milestones.

(** C7.  On an object built by the constructor and then used through any
    history of calls, [getMilestonesSummary] returns the summary of the
    milestones the calls of [recordMilestone] returned, in the order of the
    calls: [null] when there is none, and otherwise their number, the list
    itself, its first and its last element.  There are as many of them as
    calls of [recordMilestone], so the summary is [null] exactly when the
    history holds no such call. *)
Theorem getMilestonesSummary_of_history `{Engine} `{Hooks} (c : copy) (gc : GameConfig.t)
    (page : Env.t) (storage : gmap string string) (time : Z) (evs : list event) :
  returned (getMilestonesSummary (history c evs (final (constructor gc page storage time))))
  = Some (summary_of (recorded c evs (final (constructor gc page storage time)))) /\
  length (recorded c evs (final (constructor gc page storage time)))
  = length (List.filter is_recordMilestone evs) /\
  (summary_of (recorded c evs (final (constructor gc page storage time))) = None
   <-> List.filter is_recordMilestone evs = []).
Proof.
  split; [|split].
  - rewrite getMilestonesSummary_returns, milestones_history, milestones_constructor.
    reflexivity.
  - apply recorded_length.
  - pose proof (recorded_length c evs (final (constructor gc page storage time))) as Hlen.
    destruct (recorded c evs _) as [|m ms], (List.filter is_recordMilestone evs) as [|ev rest];
      cbn [summary_of]; try discriminate Hlen; split; intros; congruence.
Qed.

#[local] Instance same_this_preorder : PreOrder same_this.
Proof.
  split; [intros w; reflexivity|].
  intros a b c Hab Hbc. unfold same_this in *. congruence.
Qed.

(* ===================================================================== *)
(** ** Beyond the claims: [sendResult] *)
(* ===================================================================== *)

Lemma Current_returns `{Engine} (r : Result.t) (w : World) :
  result (Current.sendResult r w) = Returned tt.
Proof.
  destruct (invalid r) eqn:Hinv; [rewrite Current_invalid by assumption; reflexivity|].
  destruct (JSON_stringify (compactResult r)) as [s|] eqn:Hs.
  - destruct (le_lt_dec (js_length s) 4096) as [Hfit|Hbig].
    + destruct (Bridge.sendData (Env.tg (env w))) as [host|] eqn:Hhost.
      * destruct (host s) as [e|] eqn:Hcall.
        -- destruct (Current_send_fails r w s host e) as [record ->]; try assumption.
           reflexivity.
        -- rewrite (Current_sent r w s host) by assumption. reflexivity.
      * rewrite (Current_fallback r w s) by assumption. reflexivity.
    + destruct (Current_oversize r w s) as [record ->]; try assumption. reflexivity.
  - destruct (Current_unserialisable r w) as [record ->]; try assumption. reflexivity.
Qed.

(** [sendResult] of src/game-interface.js never throws: whatever fails
    inside its [try] ends in its [catch], and the record the [catch] writes
    always serialises. *)
Theorem Current_sendResult_never_throws `{Engine} (r : Result.t) (w : World) :
  result (Current.sendResult r w) = Returned tt /\
  this (final (Current.sendResult r w)) = this w.
Proof.
  split; [apply Current_returns|].
  change (same_this w (final (sendResult current_js r w))).
  revert w. apply keeps_sendResult; [exact _|]. intros k v w. reflexivity.
Qed.







(** In src/game-interface_working.js a result that [JSON.stringify] refuses
    escapes [sendResult]: the [catch] serialises the same result again, so
    the TypeError reaches the caller with nothing sent and nothing stored. *)
Theorem Working_sendResult_throws_on_BigInt `{Engine} (r : Result.t) (w : World) :
  invalid r = false ->
  JSON_stringify (result_props r) = None ->
  result (Working.sendResult r w)
  = Thrown (TypeError "Do not know how to serialize a BigInt") /\
  final (Working.sendResult r w) = w /\
  sends (emitted (Working.sendResult r w)) = 0%nat /\
  writes (emitted (Working.sendResult r w)) = 0%nat.
Proof.
  intros Hvalid Hs. rewrite (Working_unserialisable r w Hvalid Hs). repeat split.
Qed.

Lemma Working_sendResult_throws_on_BigInt_witness :
  invalid Sample.big_result = false /\
  @JSON_stringify ExactEngine.engine (result_props Sample.big_result) = None /\
  result (@sendResult ExactEngine.engine working_js Sample.big_result Sample.hosted)
  = Thrown (TypeError "Do not know how to serialize a BigInt").
Proof.
  assert (Hvalid : invalid Sample.big_result = false) by (vm_compute; reflexivity).
  assert (Hs : @JSON_stringify ExactEngine.engine (result_props Sample.big_result) = None)
    by (vm_compute; reflexivity).
  repeat (split; [assumption|]).
  exact (proj1 (@Working_sendResult_throws_on_BigInt ExactEngine.engine
                  Sample.big_result Sample.hosted Hvalid Hs)).
Defined.

(** In src/game-interface_working.js a successful hand-off is followed by a
    timer of 1500 ms whose callback closes the window; the full
    serialisation is what is sent, whatever its length, and local storage
    is not written. *)
Theorem Working_sendResult_sends_then_closes `{Engine} (r : Result.t) (w : World)
    (s : string) (host : string -> option JSError) :
  invalid r = false ->
  JSON_stringify (result_props r) = Some s ->
  Bridge.sendData (Env.tg (env w)) = Some host ->
  host s = None ->
  result (Working.sendResult r w) = Returned tt /\
  final (Working.sendResult r w) = w /\
  List.filter is_send (emitted (Working.sendResult r w)) = [Now (Act (SendData s))] /\
  List.filter is_async (emitted (Working.sendResult r w))
  = [Now (SetTimeout [Console LLog "🚪 Closing WebApp..."; Close] 1500)] /\
  last (emitted (Working.sendResult r w))
  = Some (Now (SetTimeout [Console LLog "🚪 Closing WebApp..."; Close] 1500)).
Proof.
  intros Hvalid Hs Hhost Hok.
  rewrite (Working_sent r w s host Hvalid Hs Hhost Hok).
  cbn [result final emitted].
  destruct (4096 <? js_length s)%nat; repeat split.
Qed.

Lemma Working_sendResult_sends_then_closes_witness :
  result (Sample.send working_js Sample.hosted) = Returned tt /\
  final (Sample.send working_js Sample.hosted) = Sample.hosted.
Proof.
  assert (Hvalid : invalid (Sample.result_in Sample.hosted) = false) by (vm_compute; reflexivity).
  assert (Hs : @JSON_stringify ExactEngine.engine (result_props (Sample.result_in Sample.hosted))
    = Some (default "" (@JSON_stringify ExactEngine.engine
                          (result_props (Sample.result_in Sample.hosted)))))
    by (vm_compute; reflexivity).
  pose proof (@Working_sendResult_sends_then_closes ExactEngine.engine
                (Sample.result_in Sample.hosted) Sample.hosted _ (fun _ => None)
                Hvalid Hs eq_refl eq_refl) as (Hret & Hfinal & _).
  split; assumption.
Defined.

(** src/unnamed/part_000 has no validation and no size check: for every
    result that serialises, [sendResult] returns and leaves the full
    serialisation under [game_result_<this.config.sessionId>], whether or
    not the host offers [sendData]; and it starts one request, a POST of
    that serialisation to [/api/game-result], exactly when the configuration
    has a session id. *)
Theorem Part000_sendResult_stores_and_posts `{Engine} (r : Result.t) (w : World)
    (s : string) :
  JSON_stringify (result_props r) = Some s ->
  result (Part000.sendResult r w) = Returned tt /\
  localStorage (final (Part000.sendResult r w)) !! session_key w = Some s /\
  List.filter is_async (emitted (Part000.sendResult r w))
  = (if opt_str_truthy (Config.sessionId (Game.config (this w)))
     then [Fetch "/api/game-result"
             [("Content-Type", "application/json");
              ("X-Telegram-Init-Data", Bridge.initData (Env.tg (env w)))]
             s
             [Act (Console LLog "✅ Result confirmed by server:"); SetTimeout [Close] 1000]
             [Act (Console LError "❌ Server error:"); SetTimeout [Close] 1000]]
     else []).
Proof.
  intros Hs.
  destruct (Bridge.sendData (Env.tg (env w))) as [host|] eqn:Hhost;
    [destruct (host s) as [e|] eqn:Hcall|];
    destruct (opt_str_truthy (Config.sessionId (Game.config (this w)))) eqn:Hsid.
  all: eassert (Hrun : runs_to (Part000.sendResult r) w _ _ _)
    by (unfold Part000.sendResult, stringify, tg_sendData, call_sendData;
        run @runs_bind_ret @runs_bind_throw @runs_try_ret @runs_try_throw).
  all: unfold runs_to in Hrun; rewrite Hrun;
    cbn [result final emitted localStorage set_localStorage];
    (split; [reflexivity|]); (split; [apply lookup_insert_eq|reflexivity]).
Qed.

Lemma Part000_sendResult_stores_and_posts_witness :
  result (Sample.send part_000 Sample.standalone) = Returned tt.
Proof.
  assert (Hs : @JSON_stringify ExactEngine.engine (result_props (Sample.result_in Sample.standalone))
    = Some (default "" (@JSON_stringify ExactEngine.engine
                          (result_props (Sample.result_in Sample.standalone)))))
    by (vm_compute; reflexivity).
  exact (proj1 (@Part000_sendResult_stores_and_posts ExactEngine.engine
                  (Sample.result_in Sample.standalone) Sample.standalone _ Hs)).
Defined.

(* ===================================================================== *)
(** ** Beyond the claims: the life of a session *)
(* ===================================================================== *)

#[local] Instance beyond_the_query_preorder : PreOrder beyond_the_query.
Proof.
  split; [intros w; repeat split|].
  intros a b c Hab Hbc. unfold beyond_the_query in *. cbv zeta in *.
  repeat match goal with H : _ /\ _ |- _ => destruct H end.
  repeat split; congruence.
Qed.

Lemma result_bind_returned {A B} (m : M A) (f : A -> M B) (w : World) (a : A) :
  result (m w) = Returned a -> result ((m ≫= f) w) = result (f a (final (m w))).
Proof. intros Hm. rewrite run_bind, Hm. reflexivity. Qed.

Lemma emitted_bind_returned {A B} (m : M A) (f : A -> M B) (w : World) (a : A) :
  result (m w) = Returned a ->
  emitted ((m ≫= f) w) = (emitted (m w) ++ emitted (f a (final (m w))))%list.
Proof. intros Hm. rewrite run_bind, Hm. reflexivity. Qed.

Section Session.
Context {E : Engine} {H : Hooks}.

Lemma sendEvent_run (eventName : string) (eventData : json) (w : World) :
  sendEvent eventName eventData w
  = mkRun (Returned tt) w
      ((if Env.embedded (env w)
        then [Now (Act (PostMessage (event_message w eventName eventData)))]
        else [])
       ++ [Now (Act (Console LLog ("📊 Event: " +:+ eventName)))]).
Proof. destruct w as [g [search tg embedded] ls now]. destruct embedded; reflexivity. Qed.


(** [start] does not reset a session: the counters, the milestones and the
    configuration are as they were; it stamps the start time and announces
    [game_started]. *)
Theorem start_keeps_progress (w : World) :
  result (start w) = Returned tt /\
  counters (final (start w)) = counters w /\
  Game.milestones (this (final (start w))) = Game.milestones (this w) /\
  Game.config (this (final (start w))) = Game.config (this w) /\
  State.startTime (Game.state (this (final (start w)))) = Some (num_of_Z (clock w)) /\
  State.endTime (Game.state (this (final (start w))))
  = State.endTime (Game.state (this w)) /\
  localStorage (final (start w)) = localStorage w.
Proof.
  destruct w as [g [search tg embedded] ls now].
  destruct embedded; repeat split.
Qed.

Lemma run_bind_silent {A B} (m : M A) (f : A -> M B) (w : World) (a : A) (w' : World) :
  m w = mkRun (Returned a) w' [] -> (m ≫= f) w = f a w'.
Proof. intros Hm. rewrite run_bind, Hm. cbn. destruct (f a w'); reflexivity. Qed.

Lemma this_sendResult (c : copy) (r : Result.t) : keeps same_this (sendResult c r).
Proof. apply keeps_sendResult; [exact _|]. intros k v w. reflexivity. Qed.

Lemma generateResult_returns (success : bool) (w : World) :
  exists res,
    result (generateResult success w) = Returned res /\
    Result.success res = success /\
    Result.status res = State.status (Game.state (this w)) /\
    Result.timeElapsed res = State.timeElapsed (Game.state (this w)) /\
    Result.sessionId res = Config.sessionId (Game.config (this w)) /\
    Result.gameId res = Config.gameId (Game.config (this w)).
Proof.
  unfold generateResult, getMilestonesSummary.
  rewrite !run_bind. cbn [get_world result final emitted].
  rewrite !run_bind. cbn [get_this result final emitted].
  destruct (length (Game.milestones (this w)) =? 0)%nat;
    eexists; repeat split.
Qed.

(** The world [end] hands to [generateResult]. *)
Lemma end_run (c : copy) (success : bool) (w : World) :
  exists w3,
    Game.state (this w3)
    = State.mk (if success then "completed" else "failed")
        (State.score (Game.state (this w))) (State.moves (Game.state (this w)))
        (State.mistakes (Game.state (this w))) (State.hintsUsed (Game.state (this w)))
        (State.startTime (Game.state (this w))) (Some (num_of_Z (clock w)))
        (elapsed (num_of_Z (clock w)) (State.startTime (Game.state (this w)))) /\
    Game.config (this w3) = Game.config (this w) /\
    Game.milestones (this w3) = Game.milestones (this w) /\
    end_ c success w
    = (result ← generateResult success; sendResult c result ;; mret result) w3.
Proof.
  set (w1 := final (modify_state
                      (State.set_status (if success then "completed" else "failed")) w)).
  set (w2 := final (modify_state (State.set_endTime (Some (num_of_Z (clock w)))) w1)).
  exists (final (modify_state
                   (State.set_timeElapsed
                      (elapsed (to_Number (State.endTime (Game.state (this w2))))
                               (State.startTime (Game.state (this w2))))) w2)).
  split; [reflexivity|]. split; [reflexivity|]. split; [reflexivity|].
  unfold end_.
  rewrite (run_bind_silent _ _ w tt w1) by reflexivity.
  rewrite (run_bind_silent Date_now _ w1 (num_of_Z (clock w)) w1) by reflexivity.
  rewrite (run_bind_silent _ _ w1 tt w2) by reflexivity.
  rewrite (run_bind_silent get_this _ w2 (this w2) w2) by reflexivity.
  erewrite run_bind_silent by reflexivity.
  reflexivity.
Qed.

(** Whatever the copy, [end] stamps the end time, stores the elapsed time as
    whole seconds between the two stamps, and leaves the counters, the start
    time, the milestones and the configuration as they were, even when
    sending the result throws. *)
Theorem end_stamps_time (c : copy) (success : bool) (w : World) :
  State.endTime (Game.state (this (final (end_ c success w)))) = Some (num_of_Z (clock w)) /\
  State.timeElapsed (Game.state (this (final (end_ c success w))))
  = elapsed (num_of_Z (clock w)) (State.startTime (Game.state (this w))) /\
  State.startTime (Game.state (this (final (end_ c success w))))
  = State.startTime (Game.state (this w)) /\
  counters (final (end_ c success w)) = counters w /\
  Game.milestones (this (final (end_ c success w))) = Game.milestones (this w) /\
  Game.config (this (final (end_ c success w))) = Game.config (this w).
Proof.
  destruct (end_run c success w) as (w3 & Hstate & Hconfig & Hms & ->).
  assert (Hthis : this (final ((result ← generateResult success;
                                sendResult c result ;; mret result) w3)) = this w3).
  { revert w3 Hstate Hconfig Hms. intros w3 _ _ _. revert w3.
    change (keeps same_this (result ← generateResult success;
                             sendResult c result ;; mret result)).
    pose proof this_sendResult.
    through @keeps_bind @keeps_try. }
  unfold counters. rewrite Hthis, Hstate, Hconfig, Hms. repeat split.
Qed.

(** In src/game-interface.js [end] always returns the result it built: its
    [success] flag is the argument, its status the one [end] has just set,
    its elapsed time the one [end] has just computed. *)
Theorem Current_end_returns_result (success : bool) (w : World) :
  exists res,
    returned (end_ current_js success w) = Some res /\
    Result.success res = success /\
    Result.status res = (if success then "completed" else "failed") /\
    Result.timeElapsed res
    = elapsed (num_of_Z (clock w)) (State.startTime (Game.state (this w))) /\
    Result.sessionId res = Config.sessionId (Game.config (this w)) /\
    Result.gameId res = Config.gameId (Game.config (this w)).
Proof.
  destruct (end_run current_js success w) as (w3 & Hstate & Hconfig & _ & ->).
  destruct (generateResult_returns success w3)
    as (res & Hres & Hsuccess & Hstatus & Helapsed & Hsid & Hgid).
  exists res. unfold returned.
  rewrite (result_bind_returned _ _ w3 res Hres).
  rewrite run_bind. cbn [sendResult]. rewrite Current_returns. cbn [result mret M_ret].
  rewrite Hsuccess, Hstatus, Helapsed, Hsid, Hgid, Hstate, Hconfig. repeat split.
Qed.

(** [handleExit] on a game that is not being played closes the window and
    does nothing else. *)
Theorem handleExit_closes_when_not_playing (c : copy) (confirmed : bool) (w : World) :
  String.eqb (status_of w) "playing" = false ->
  handleExit c confirmed w = mkRun (Returned tt) w [Now (Act Close)].
Proof.
  intros Hidle. unfold handleExit. rewrite run_bind. cbn [get_this result final emitted].
  change (State.status (Game.state (this w))) with (status_of w). rewrite Hidle.
  reflexivity.
Qed.

(** A declined confirmation leaves everything as it was: [handleExit] asks,
    returns, and neither ends the game nor closes the window. *)
Theorem handleExit_declined (c : copy) (w : World) :
  String.eqb (status_of w) "playing" = true ->
  handleExit c false w
  = mkRun (Returned tt) w [Now (Act (Confirm "Exit game? Progress will be lost."))].
Proof.
  intros Hplaying. unfold handleExit. rewrite run_bind. cbn [get_this result final emitted].
  change (State.status (Game.state (this w))) with (status_of w). rewrite Hplaying.
  reflexivity.
Qed.

(** No method removes, replaces or reorders a recorded milestone: after any
    history the milestones begin with the ones there were. *)
Theorem milestones_are_never_lost (c : copy) (evs : list event) (w : World) :
  exists later,
    Game.milestones (this (history c evs w)) = (Game.milestones (this w) ++ later)%list /\
    length later = length (List.filter is_recordMilestone evs).
Proof.
  exists (recorded c evs w). split; [apply milestones_history|apply recorded_length].
Qed.

Lemma query_modify_config_difficulty v :
  keeps beyond_the_query (modify_config (Config.set_difficulty v)).
Proof. intros w. repeat split. Qed.

Lemma query_modify_config_timeLimit v :
  keeps beyond_the_query (modify_config (Config.set_timeLimit v)).
Proof. intros w. repeat split. Qed.

Lemma query_modify_config_timeModifier v :
  keeps beyond_the_query (modify_config (Config.set_timeModifier v)).
Proof. intros w. repeat split. Qed.

Lemma query_modify_config_hintsCount v :
  keeps beyond_the_query (modify_config (Config.set_hintsCount v)).
Proof. intros w. repeat split. Qed.

Lemma query_modify_config_scoreModifier v :
  keeps beyond_the_query (modify_config (Config.set_scoreModifier v)).
Proof. intros w. repeat split. Qed.

Lemma query_modify_config_sessionId v :
  keeps beyond_the_query (modify_config (Config.set_sessionId v)).
Proof. intros w. repeat split. Qed.

Lemma query_modify_config_userId v :
  keeps beyond_the_query (modify_config (Config.set_userId v)).
Proof. intros w. repeat split. Qed.

Lemma query_modify_config_language v :
  keeps beyond_the_query (modify_config (Config.set_language v)).
Proof. intros w. repeat split. Qed.

#[local] Hint Resolve query_modify_config_difficulty query_modify_config_timeLimit
  query_modify_config_timeModifier query_modify_config_hintsCount
  query_modify_config_scoreModifier query_modify_config_sessionId
  query_modify_config_userId query_modify_config_language : frame.

(** The query string and the host's user record reach only the settings
    [parseInputParams] names: after construction the game's id, name and
    version, the switches for hints, sound, haptics and penalties and the
    custom parameters are the constructor's, the session state is the
    initial one, no milestone is recorded and local storage is untouched,
    even when the call throws. *)
Theorem constructor_keeps_identity (gc : GameConfig.t) (page : Env.t)
    (storage : gmap string string) (time : Z) :
  beyond_the_query (mkWorld (initial_game gc) page storage time)
                   (final (constructor gc page storage time)).
Proof.
  unfold constructor.
  generalize (mkWorld (initial_game gc) page storage time).
  change (keeps beyond_the_query (initTelegram ;; parseInputParams)).
  unfold parseInputParams.
  through @keeps_bind @keeps_try.
Qed.

End Session.

Lemma handleExit_closes_when_not_playing_witness :
  @handleExit ExactEngine.engine BaseHooks current_js true Sample.hosted
  = mkRun (Returned tt) Sample.hosted [Now (Act Close)].
Proof.
  apply (@handleExit_closes_when_not_playing ExactEngine.engine BaseHooks).
  vm_compute; reflexivity.
Defined.

Lemma handleExit_declined_witness :
  @handleExit ExactEngine.engine BaseHooks current_js false Sample.playing
  = mkRun (Returned tt) Sample.playing
      [Now (Act (Confirm "Exit game? Progress will be lost."))].
Proof.
  apply (@handleExit_declined ExactEngine.engine BaseHooks).
  vm_compute; reflexivity.
Defined.

(* ===================================================================== *)
(** ** Beyond the claims: messages to the parent window *)
(* ===================================================================== *)

Section Guards.
Context {I : World -> Prop} {P : effect -> Prop}.

Lemma guards_ret {A} (a : A) : guards I P (mret a).
Proof. intros w Hw. split; [constructor|exact Hw]. Qed.

Lemma guards_throw {A} (e : JSError) : guards I P (mthrow (A:=A) e).
Proof. intros w Hw. split; [constructor|exact Hw]. Qed.

Lemma guards_bind {A B} (m : M A) (f : A -> M B) :
  guards I P m -> (forall a, guards I P (f a)) -> guards I P (m ≫= f).
Proof.
  intros Hm Hf w Hw. destruct (Hm w Hw) as [Hes Hfinal]. rewrite run_bind.
  destruct (result (m w)) as [a|e]; cbn [emitted final]; [|split; assumption].
  destruct (Hf a _ Hfinal) as [Hes2 Hfinal2].
  split; [apply Forall_app; split; assumption|exact Hfinal2].
Qed.

Lemma guards_try {A} (body : M A) (handler : JSError -> M A) :
  guards I P body -> (forall e, guards I P (handler e)) -> guards I P (try_catch body handler).
Proof.
  intros Hb Hh w Hw. destruct (Hb w Hw) as [Hes Hfinal]. rewrite run_try.
  destruct (result (body w)) as [a|e] eqn:Hres; [split; assumption|].
  cbn [emitted final].
  destruct (Hh e _ Hfinal) as [Hes2 Hfinal2].
  split; [apply Forall_app; split; assumption|exact Hfinal2].
Qed.

End Guards.

Section NoPost.
Context {E : Engine} {H : Hooks}.

Lemma quiet_get_world : guards standalone_page (fun e => is_post e = false) get_world.
Proof. intros w Hw. split; [repeat constructor|exact Hw]. Qed.

Lemma quiet_get_this : guards standalone_page (fun e => is_post e = false) get_this.
Proof. intros w Hw. split; [repeat constructor|exact Hw]. Qed.

Lemma quiet_put_this g : guards standalone_page (fun e => is_post e = false) (put_this g).
Proof. intros w Hw. split; [repeat constructor|exact Hw]. Qed.

Lemma quiet_Date_now : guards standalone_page (fun e => is_post e = false) Date_now.
Proof. intros w Hw. split; [repeat constructor|exact Hw]. Qed.

Lemma quiet_setItem k v : guards standalone_page (fun e => is_post e = false) (setItem k v).
Proof. intros w Hw. split; [repeat constructor|exact Hw]. Qed.

Lemma quiet_emit e :
  is_post e = false -> guards standalone_page (fun e => is_post e = false) (emit e).
Proof. intros He w Hw. split; [repeat constructor; exact He|exact Hw]. Qed.

Lemma quiet_perform a :
  is_post (Now (Act a)) = false ->
  guards standalone_page (fun e => is_post e = false) (perform a).
Proof. intros He w Hw. split; [repeat constructor; exact He|exact Hw]. Qed.

Lemma quiet_stringify props :
  guards standalone_page (fun e => is_post e = false) (stringify props).
Proof.
  unfold stringify. destruct (JSON_stringify props); intros w Hw;
    (split; [repeat constructor|exact Hw]).
Qed.

Lemma quiet_assign_const name value :
  guards standalone_page (fun e => is_post e = false) (assign_const name value).
Proof. intros w Hw. split; [repeat constructor|exact Hw]. Qed.

Lemma quiet_call_sendData host payload :
  guards standalone_page (fun e => is_post e = false) (call_sendData host payload).
Proof.
  unfold call_sendData. intros w Hw. rewrite run_bind. cbn [perform emit result final emitted].
  destruct (host payload); (split; [repeat constructor|exact Hw]).
Qed.

(** On a page that is not shown in a frame [sendEvent] posts nothing. *)
Lemma quiet_sendEvent (n : string) (d : json) :
  guards standalone_page (fun e => is_post e = false) (sendEvent n d).
Proof.
  intros w Hw. unfold standalone_page in Hw. rewrite sendEvent_run, Hw.
  split; [repeat constructor|exact Hw].
Qed.

#[local] Hint Resolve guards_ret guards_throw quiet_get_world quiet_get_this quiet_put_this
  quiet_Date_now quiet_setItem quiet_stringify quiet_assign_const quiet_call_sendData
  quiet_sendEvent : frame.
#[local] Hint Extern 1 (guards _ _ (perform _)) => apply quiet_perform; reflexivity : frame.
#[local] Hint Extern 1 (guards _ _ (console_log _)) => apply quiet_perform; reflexivity : frame.
#[local] Hint Extern 1 (guards _ _ (console_warn _)) => apply quiet_perform; reflexivity : frame.
#[local] Hint Extern 1 (guards _ _ (console_error _)) => apply quiet_perform; reflexivity : frame.
#[local] Hint Extern 1 (guards _ _ (alert _)) => apply quiet_perform; reflexivity : frame.
#[local] Hint Extern 1 (guards _ _ (emit _)) => apply quiet_emit; reflexivity : frame.

Lemma quiet_sendResult (c : copy) (r : Result.t) :
  guards standalone_page (fun e => is_post e = false) (sendResult c r).
Proof.
  destruct c; unfold sendResult, Current.sendResult, Working.sendResult, Part000.sendResult,
    tg_sendData;
    through @guards_bind @guards_try.
Qed.

Lemma quiet_end (c : copy) (success : bool) :
  guards standalone_page (fun e => is_post e = false) (end_ c success).
Proof.
  pose proof quiet_sendResult.
  unfold end_, generateResult, getMilestonesSummary, modify_state.
  through @guards_bind @guards_try.
Qed.

Lemma quiet_invoke (c : copy) (k : call) :
  guards standalone_page (fun e => is_post e = false) (invoke c k).
Proof.
  pose proof quiet_sendResult. pose proof quiet_end.
  destruct k; cbn [invoke];
    unfold parseInputParams, initTelegram, setTranslations, pure_call, applyTranslations,
      recordMilestone, getMilestonesSummary, start, generateResult, handleExit,
      handleThemeChange, modify_config, modify_state;
    through @guards_bind @guards_try.
Qed.

(** On a page that is not shown in a frame of another page no method posts
    a message to another window, whatever is called and in whatever order:
    every [postMessage] of the class is behind [window.parent !== window]. *)
Theorem no_message_outside_a_frame (c : copy) (evs : list event) (k : call) (w : World) :
  Env.embedded (env w) = false ->
  Env.embedded (env (history c evs w)) = false /\
  Forall (fun e => is_post e = false) (emitted (invoke c k (history c evs w))).
Proof.
  intros Hw.
  assert (Hall : forall evs w, standalone_page w -> standalone_page (history c evs w)).
  { clear. intros evs. unfold history.
    induction evs as [|ev evs IH]; intros w Hw; [exact Hw|].
    cbn [fold_left]. apply IH.
    destruct ev as [k| |]; cbn [happen]; [apply (quiet_invoke c k w Hw)|exact Hw..]. }
  split; [apply (Hall evs w Hw)|].
  apply quiet_invoke, Hall, Hw.
Qed.

End NoPost.

Lemma no_message_outside_a_frame_witness :
  Env.embedded (env Sample.hosted) = false /\
  Forall (fun e => is_post e = false)
    (emitted (@invoke ExactEngine.engine BaseHooks current_js (call_end true)
                (@history ExactEngine.engine BaseHooks current_js
                   [Method call_start; Tick 1500] Sample.hosted))).
Proof.
  split; [reflexivity|].
  exact (proj2 (@no_message_outside_a_frame ExactEngine.engine BaseHooks current_js
                  [Method call_start; Tick 1500] (call_end true) Sample.hosted eq_refl)).
Defined.

(* ===================================================================== *)
(** ** Beyond the claims: translations *)
(* ===================================================================== *)

#[local] Instance same_texts_preorder : PreOrder same_texts.
Proof.
  split; [intros w; split; reflexivity|].
  intros a b c [Hab1 Hab2] [Hbc1 Hbc2]. unfold same_texts in *. split; congruence.
Qed.

Section Texts.
Context {E : Engine} {H : Hooks}.

Lemma texts_setItem k v : keeps same_texts (setItem k v).
Proof. intros w. split; reflexivity. Qed.

Lemma texts_modify_state f : keeps same_texts (modify_state f).
Proof. intros w. split; reflexivity. Qed.

Lemma texts_recordMilestone n md : keeps same_texts (recordMilestone n md).
Proof.
  intros w. destruct (recordMilestone_run n md w) as (m & _ & ->). split; reflexivity.
Qed.

Lemma texts_start : keeps same_texts start.
Proof. pose proof texts_modify_state. unfold start. through @keeps_bind @keeps_try. Qed.

Lemma texts_end (c : copy) (success : bool) : keeps same_texts (end_ c success).
Proof.
  pose proof texts_modify_state. pose proof texts_setItem.
  unfold end_. through @keeps_bind @keeps_try.
Qed.

Lemma texts_handleExit (c : copy) (confirmed : bool) : keeps same_texts (handleExit c confirmed).
Proof. pose proof texts_end. unfold handleExit. through @keeps_bind @keeps_try. Qed.

Lemma texts_happen (c : copy) (ev : event) (w : World) :
  keeps_texts ev = true -> same_texts w (happen c ev w).
Proof.
  destruct ev as [k| |]; [|intros _; split; reflexivity..].
  cbn [happen]. revert w.
  pose proof texts_setItem. pose proof texts_recordMilestone. pose proof texts_start.
  pose proof texts_end. pose proof texts_handleExit.
  destruct k; cbn [keeps_texts invoke]; intros w Hk; try discriminate Hk; revert w;
    match goal with |- forall w, same_texts w (final (?m w)) => change (keeps same_texts m) end;
    through @keeps_bind @keeps_try.
Qed.

Lemma texts_history (c : copy) (evs : list event) (w : World) :
  forallb keeps_texts evs = true -> same_texts w (history c evs w).
Proof.
  unfold history. revert w.
  induction evs as [|ev evs IH]; intros w Hevs; [reflexivity|].
  cbn [forallb] in Hevs. apply andb_prop in Hevs as [Hev Hevs].
  cbn [fold_left]. transitivity (happen c ev w); [apply texts_happen, Hev|apply IH, Hevs].
Qed.

(** A non-empty text that [setTranslations] receives for the current
    language under some key is what [t] returns for that key, whatever the
    fallback, right after the call and after any history that neither calls
    [parseInputParams] again nor replaces the translations. *)
Theorem t_after_setTranslations (c : copy) (translations : gmap string (gmap string string))
    (loading : bool) (w : World) (dict : gmap string string) (key text : string)
    (fallback : option string) (evs : list event) :
  translations !! to_String (Config.language (Game.config (this w))) = Some dict ->
  dict !! key = Some text ->
  str_truthy text = true ->
  forallb keeps_texts evs = true ->
  t (this (history c evs (final (setTranslations translations loading w)))) key fallback
  = Some text.
Proof.
  intros Hlang Hkey Htext Hevs.
  destruct (texts_history c evs (final (setTranslations translations loading w)) Hevs)
    as [Hl Htr].
  unfold t, lookup_text. rewrite Hl, Htr, setTranslations_final.
  cbn [this set_this Game.translations Game.set_translations Game.config].
  rewrite Hlang, Hkey, Htext. reflexivity.
Qed.

End Texts.

Lemma t_after_setTranslations_witness :
  t (this (@history ExactEngine.engine BaseHooks current_js Sample.played
             (final (setTranslations Sample.texts false Sample.hosted))))
    "title" None
  = Some "Tower of Hanoi".
Proof.
  apply (@t_after_setTranslations ExactEngine.engine BaseHooks current_js Sample.texts false
           Sample.hosted {[ "title" := "Tower of Hanoi" ]});
    [vm_compute; reflexivity | vm_compute; reflexivity | reflexivity | reflexivity].
Defined.
